(** * BYN exchange dashboard: the data-retrieval core of [app.py]

    A shallow embedding of [chunked_dynamics_fetch], [rates_for_currencies]
    and the 7-day comparison table of [app.py], with the properties of the
    chunked fetcher, the currency resolver, the aggregator and the snapshot
    comparison.

    Modelling conventions.
    - A [datetime.date] is its proleptic ordinal ([date.toordinal()]), an
      integer; [d + timedelta(days=n)] is [d + n].  The model agrees with
      [datetime] as long as the sums stay below [date.max]; the
      [OverflowError] of the last year of [datetime] (9999) is not modelled.
    - A pandas/JSON float is an IEEE-754 binary64 value ([spec_float] with
      precision 53 and maximal exponent 1024); a missing value is NaN.
    - A [DataFrame] with columns [Date] and [Cur_OfficialRate] is the list of
      its rows in index order.
    - The HTTP upstream is an oracle: the reply to the [n]-th request issued
      in the session may depend on [n] and on the request.
    - Effects (HTTP requests issued, Streamlit messages shown, Python
      exceptions) are threaded through a state-and-exception monad [M]. *)

From Stdlib Require Import String.
From Stdlib Require Import ZArith List Lia Bool.
From Stdlib Require Import Sorted Permutation.
From Stdlib Require Import SpecFloat.
Import ListNotations.
Open Scope Z_scope.

(** ** Dates and floats *)

Definition date := Z.

Definition float64 := spec_float.
Definition prec := 53.
Definition emax := 1024.
Definition NaN : float64 := S754_nan.
Definition fsub : float64 -> float64 -> float64 := SFsub prec emax.
Definition fmul : float64 -> float64 -> float64 := SFmul prec emax.
Definition fdiv : float64 -> float64 -> float64 := SFdiv prec emax.
(** [float(z)] for an integer [z]. *)
Definition float_of_Z (z : Z) : float64 := binary_normalize prec emax z 0 false.
(** The binary64 value nearest to the decimal [n / 10^k] for small [n]. *)
Definition decimal (n : Z) (k : nat) : float64 :=
  fdiv (float_of_Z n) (float_of_Z (10 ^ Z.of_nat k)).

(** [pd.isna] / [pd.notna] on a float. *)
Definition isna (x : float64) : bool :=
  match x with S754_nan => true | _ => false end.
Definition notna (x : float64) : bool := negb (isna x).

(** ** Data model *)

(** One row of the [/currencies] directory (the columns kept by
    [fetch_currency_list]). *)
Record CurrencyRecord := {
  Cur_ID : Z;
  Cur_Abbreviation : string;
  Cur_Scale : Z;
  Cur_Name : string;
  Cur_DateStart : date;
  Cur_DateEnd : date
}.

(** One row of a dynamics reply: the columns [Date], [Cur_OfficialRate]. *)
Record RatePoint := { Date : date; Cur_OfficialRate : float64 }.

Definition DataFrame := list RatePoint.

(** [GET {BASE}/rates/dynamics/{cur_id}?startdate=..&enddate=..] *)
Record Request := { req_cur_id : Z; startdate : date; enddate : date }.

(** What [requests.get] brings back: nothing (timeout, connection failure:
    a [RequestException]) or a response with its status code and its body
    ([None] when the body is not JSON, so that [resp.json()] raises). *)
Inductive NetReply :=
| NoReply
| Reply (status_code : Z) (json : option (list RatePoint)).

Inductive exn :=
| HTTPError (status : Z)
| RequestException
| JSONDecodeError.

(** Text of the Streamlit notes of [rates_for_currencies]. *)
Inductive note :=
| NotInList (code : string)
| NoCurId (code : string) (start end_ : date)
| NoDynamics (code : string) (cur_start cur_end : date).

Inductive Message :=
| st_warning (text : note)
| st_info (text : note).

(** ** The effect monad *)

Record Session := { calls : list Request; ui : list Message }.

Inductive outcome (A : Type) :=
| Return (a : A)
| Raise (e : exn)
| OutOfFuel.
Arguments Return {A} a.
Arguments Raise {A} e.
Arguments OutOfFuel {A}.

Definition M (A : Type) := Session -> outcome A * Session.

Definition ret {A} (a : A) : M A := fun st => (Return a, st).
Definition raise {A} (e : exn) : M A := fun st => (Raise e, st).
Definition out_of_fuel {A} : M A := fun st => (OutOfFuel, st).
Definition bind {A B} (m : M A) (k : A -> M B) : M B :=
  fun st =>
    match m st with
    | (Return a, st') => k a st'
    | (Raise e, st') => (Raise e, st')
    | (OutOfFuel, st') => (OutOfFuel, st')
    end.

Notation "x <- m ;; k" := (bind m (fun x => k))
  (at level 61, m at next level, right associativity).
Notation "m ;;; k" := (bind m (fun _ => k))
  (at level 61, right associativity).

Definition show (msg : Message) : M unit :=
  fun st => (Return tt, {| calls := calls st; ui := ui st ++ [msg] |}).

(** ** Pure DataFrame operations *)

(** [df.drop_duplicates(subset="Date")]: the first row of each date stays. *)
Fixpoint drop_duplicates_from (seen : list date) (df : DataFrame) : DataFrame :=
  match df with
  | [] => []
  | p :: rest =>
      if existsb (Z.eqb (Date p)) seen then drop_duplicates_from seen rest
      else p :: drop_duplicates_from (Date p :: seen) rest
  end.
Definition drop_duplicates (df : DataFrame) : DataFrame :=
  drop_duplicates_from [] df.

(** [df.sort_values("Date")]. *)
Fixpoint insert_by_date (p : RatePoint) (df : DataFrame) : DataFrame :=
  match df with
  | [] => [p]
  | q :: rest =>
      if Date p <? Date q then p :: q :: rest else q :: insert_by_date p rest
  end.
Fixpoint sort_values (df : DataFrame) : DataFrame :=
  match df with
  | [] => []
  | p :: rest => insert_by_date p (sort_values rest)
  end.

(** Lines 80-83: merge of the chunks kept in [dfs]. *)
Definition merge_chunks (dfs : list DataFrame) : DataFrame :=
  match dfs with
  | [] => []
  | _ => sort_values (drop_duplicates (concat dfs))
  end.

Definition empty {A} (l : list A) : bool :=
  match l with [] => true | _ => false end.

(** ** [chunked_dynamics_fetch] (lines 54-84) *)

Definition max_days := 365.

Section Upstream.

Variable upstream : nat -> Request -> NetReply.

(** [requests.get(url, params=params, timeout=15)] *)
Definition requests_get (req : Request) : M (Z * option (list RatePoint)) :=
  fun st =>
    let st' := {| calls := calls st ++ [req]; ui := ui st |} in
    match upstream (length (calls st)) req with
    | NoReply => (Raise RequestException, st')
    | Reply status body => (Return (status, body), st')
    end.

(** [resp.raise_for_status()] *)
Definition raise_for_status (status : Z) : M unit :=
  if (400 <=? status) && (status <? 600) then raise (HTTPError status)
  else ret tt.

(** [resp.json()] *)
Definition resp_json (body : option (list RatePoint)) : M (list RatePoint) :=
  match body with
  | Some chunk => ret chunk
  | None => raise JSONDecodeError
  end.

(** One pass through the body of the [while] loop (lines 65-79), from the
    loop variables [(s, dfs)] to their values at the next test. *)
Definition loop_body (cur_id : Z) (end_ : date) (s : date) (dfs : list DataFrame)
  : M (date * list DataFrame) :=
  let chunk_end := Z.min (s + (max_days - 1)) end_ in
  resp <- requests_get {| req_cur_id := cur_id; startdate := s; enddate := chunk_end |} ;;
  if fst resp =? 404 then
    ret (chunk_end + 1, dfs)
  else
    raise_for_status (fst resp) ;;;
    chunk <- resp_json (snd resp) ;;
    ret (chunk_end + 1, if empty chunk then dfs else dfs ++ [chunk]).

(** [while s <= end: ...], at most [fuel] passes. *)
Fixpoint while_loop (fuel : nat) (cur_id : Z) (end_ : date) (s : date)
    (dfs : list DataFrame) : M (list DataFrame) :=
  if s <=? end_ then
    match fuel with
    | O => out_of_fuel
    | S fuel' =>
        next <- loop_body cur_id end_ s dfs ;;
        while_loop fuel' cur_id end_ (fst next) (snd next)
    end
  else ret dfs.

Definition chunked_dynamics_fetch (cur_id : Z) (start end_ : date) : M DataFrame :=
  if end_ <? start then ret []
  else
    dfs <- while_loop (Z.to_nat (end_ - start + 1)) cur_id end_ start [] ;;
    ret (merge_chunks dfs).

(** ** [rates_for_currencies] (lines 86-124) *)

(** The frames collected in [series]: the column label (the code) and the
    fetched frame, indexed by [Date]. *)
Definition Series := (string * DataFrame)%type.

(** Lines 94-108: the rows of the directory for [code], then those whose
    validity window covers the whole period, or else its start. *)
Definition rows_for (currency_map : list CurrencyRecord) (code : string) :=
  filter (fun r => String.eqb (Cur_Abbreviation r) code) currency_map.

Definition covers_period (start end_ : date) (r : CurrencyRecord) : bool :=
  (Cur_DateStart r <=? start) && (Cur_DateEnd r >=? end_).

Definition valid_rows (rows : list CurrencyRecord) (start end_ : date) :=
  let valid := filter (covers_period start end_) rows in
  if empty valid then filter (covers_period start start) rows else valid.

(** The body of [for code in codes] (lines 93-120). *)
Definition process_code (currency_map : list CurrencyRecord) (start end_ : date)
    (series : list Series) (code : string) : M (list Series) :=
  let rows := rows_for currency_map code in
  if empty rows then
    show (st_warning (NotInList code)) ;;; ret series
  else
    match valid_rows rows start end_ with
    | [] => show (st_info (NoCurId code start end_)) ;;; ret series
    | r0 :: _ =>
        let cur_id := Cur_ID r0 in
        let cur_start := Z.max start (Cur_DateStart r0) in
        let cur_end := Z.min end_ (Cur_DateEnd r0) in
        df_dyn <- chunked_dynamics_fetch cur_id cur_start cur_end ;;
        if empty df_dyn then
          show (st_info (NoDynamics code cur_start cur_end)) ;;; ret series
        else ret (series ++ [(code, df_dyn)])
    end.

Fixpoint for_codes (currency_map : list CurrencyRecord) (start end_ : date)
    (codes : list string) (series : list Series) : M (list Series) :=
  match codes with
  | [] => ret series
  | code :: rest =>
      series' <- process_code currency_map start end_ series code ;;
      for_codes currency_map start end_ rest series'
  end.

(** The wide table: the column labels after [Date], and one row per date
    with one cell per column (empty where the column has no such date). *)
Record WideTable := {
  columns : list string;
  rows : list (date * list (option float64))
}.

(** The value of a frame at an index label. *)
Definition at_date (df : DataFrame) (d : date) : option float64 :=
  option_map Cur_OfficialRate (find (fun p => Date p =? d) df).

Fixpoint insert_date (d : date) (l : list date) : list date :=
  match l with
  | [] => [d]
  | e :: rest => if d <? e then d :: e :: rest else e :: insert_date d rest
  end.
Fixpoint sort_dates (l : list date) : list date :=
  match l with
  | [] => []
  | d :: rest => insert_date d (sort_dates rest)
  end.
Fixpoint union_dates (seen : list date) (l : list date) : list date :=
  match l with
  | [] => []
  | d :: rest =>
      if existsb (Z.eqb d) seen then union_dates seen rest
      else d :: union_dates (d :: seen) rest
  end.

(** [pd.concat(series, axis=1).sort_index()] then [reset_index()]. *)
Definition concat_axis1 (series : list Series) : WideTable :=
  let index := sort_dates (union_dates [] (flat_map (fun s => map Date (snd s)) series)) in
  {| columns := map fst series;
     rows := map (fun d => (d, map (fun s => at_date (snd s) d) series)) index |}.

Definition rates_for_currencies (codes : list string)
    (currency_map : list CurrencyRecord) (start end_ : date) : M WideTable :=
  series <- for_codes currency_map start end_ codes [] ;;
  if empty series then ret {| columns := []; rows := [] |}
  else ret (concat_axis1 series).

End Upstream.

(** ** The 7-day comparison table (lines 168-210) *)

(** A row of a [/rates] snapshot: the five fields read by the page, the rate
    a number (a null among numbers is NaN). *)
Record SnapshotRow := {
  snap_Abbreviation : string;
  snap_Name : string;
  snap_Scale : Z;
  snap_Date : date;
  snap_OfficialRate : float64
}.

(** A row of [table_df]. *)
Record TableRow := {
  Code : string;
  Name : string;
  Scale : Z;
  RowDate : date;
  Rate_BYN_per_scale : float64;
  Rate_7d_ago : float64;
  Change_abs : float64;
  Change_pct : float64
}.

(** Lines 187-194: the compare-date snapshot reduced to [Code] and
    [Rate_7d_ago]; [None] stands for any exception in the [try] block. *)
Definition rates_7 (fetched : option (list SnapshotRow)) : list (string * float64) :=
  match fetched with
  | Some snapshot => map (fun r => (snap_Abbreviation r, snap_OfficialRate r)) snapshot
  | None => []
  end.

(** Lines 168-179. *)
Definition today_filtered (today_rates : list SnapshotRow) (selected_codes : list string) :=
  filter (fun r => existsb (String.eqb (snap_Abbreviation r)) selected_codes) today_rates.

(** Lines 198-201 on one merged row. *)
Definition table_row (r : SnapshotRow) (rate_7d_ago : float64) : TableRow :=
  let change_abs := fsub (snap_OfficialRate r) rate_7d_ago in
  {| Code := snap_Abbreviation r; Name := snap_Name r; Scale := snap_Scale r;
     RowDate := snap_Date r; Rate_BYN_per_scale := snap_OfficialRate r;
     Rate_7d_ago := rate_7d_ago;
     Change_abs := change_abs;
     Change_pct := fmul (fdiv change_abs rate_7d_ago) (float_of_Z 100) |}.

(** [today_filtered.merge(rates_7, on="Code", how="left")]: every left row,
    once per matching right row, or once with a missing value. *)
Definition merge_left (left : list SnapshotRow) (right : list (string * float64))
  : list TableRow :=
  flat_map (fun r =>
    match filter (fun c => String.eqb (fst c) (snap_Abbreviation r)) right with
    | [] => [table_row r NaN]
    | ms => map (fun c => table_row r (snd c)) ms
    end) left.

Fixpoint insert_by_code (r : TableRow) (l : list TableRow) : list TableRow :=
  match l with
  | [] => [r]
  | q :: rest =>
      if String.ltb (Code q) (Code r) then q :: insert_by_code r rest
      else r :: q :: rest
  end.
Fixpoint sort_by_code (l : list TableRow) : list TableRow :=
  match l with
  | [] => []
  | r :: rest => insert_by_code r (sort_by_code rest)
  end.

(** [table_df] at line 202: [sort_values("Code")], the rows of an equal code
    staying in the order of the merge. *)
Definition table_df (today_rates : list SnapshotRow) (selected_codes : list string)
    (fetched : option (list SnapshotRow)) : list TableRow :=
  sort_by_code (merge_left (today_filtered today_rates selected_codes) (rates_7 fetched)).



(** Line 210: the displayed percentage, formatted when present. *)
Inductive pct_cell :=
| Percent (x : float64)
| Dash.

Definition display_pct (x : float64) : pct_cell :=
  if notna x then Percent x else Dash.

(** ** Notions used to state the properties *)

(** The days [a], [a+1], ... ([n] of them), and the closed range [[a, b]]. *)
Fixpoint days_from (a : date) (n : nat) : list date :=
  match n with
  | O => []
  | S n' => a :: days_from (a + 1) n'
  end.
Definition date_range (a b : date) : list date := days_from a (Z.to_nat (b - a + 1)).

(** The days asked for by one request. *)
Definition window_days (r : Request) : list date :=
  date_range (startdate r) (enddate r).

(** The [k]-th window of the partition of [[start, end_]] in windows of
    [max_days] days, and the number of windows. *)
Definition nth_window (cur_id : Z) (start end_ : date) (k : nat) : Request :=
  {| req_cur_id := cur_id;
     startdate := start + max_days * Z.of_nat k;
     enddate := Z.min (start + max_days * Z.of_nat k + (max_days - 1)) end_ |}.
Definition n_windows (start end_ : date) : nat :=
  Z.to_nat ((end_ - start) / max_days + 1).
Definition windows (cur_id : Z) (start end_ : date) : list Request :=
  map (nth_window cur_id start end_) (seq 0 (n_windows start end_)).

(** What the loop body makes of a reply: the exception it raises, if any,
    and the chunk it appends to [dfs], if any. *)
Definition reply_exn (rep : NetReply) : option exn :=
  match rep with
  | NoReply => Some RequestException
  | Reply status body =>
      if status =? 404 then None
      else if (400 <=? status) && (status <? 600) then Some (HTTPError status)
      else match body with
           | None => Some JSONDecodeError
           | Some _ => None
           end
  end.
Definition reply_chunk (rep : NetReply) : list DataFrame :=
  match rep with
  | Reply status (Some chunk) =>
      if (status =? 404) || empty chunk then [] else [chunk]
  | _ => []
  end.

(** The session after [ws] more requests. *)
Definition after_calls (st : Session) (ws : list Request) : Session :=
  {| calls := calls st ++ ws; ui := ui st |}.

(** The reply to the [k]-th window counted from [s], when the session stood
    at [st] before the first of them. *)
Definition reply_at (upstream : nat -> Request -> NetReply) (cur_id : Z)
    (end_ : date) (st : Session) (s : date) (k : nat) : NetReply :=
  upstream (length (calls st) + k)%nat (nth_window cur_id s end_ k).

(** Dates strictly increasing along a frame. *)
Definition strictly_increasing (df : DataFrame) : Prop :=
  StronglySorted Z.lt (map Date df).

(** The first row of a frame with the given date. *)
Definition first_at (df : DataFrame) (d : date) : option RatePoint :=
  find (fun p => Date p =? d) df.

(** The record picked for [code] at lines 94-109, if any. *)
Definition resolved_row (currency_map : list CurrencyRecord) (code : string)
    (start end_ : date) : option CurrencyRecord :=
  hd_error (valid_rows (rows_for currency_map code) start end_).

(** The resolver as the specification words it: among the records of the
    code, the first in directory order whose validity window covers the whole
    period, or else the first whose window covers its start. *)
Definition resolve_spec (directory : list CurrencyRecord) (code : string)
    (start end_ : date) : option CurrencyRecord :=
  match find (fun r => String.eqb (Cur_Abbreviation r) code
                       && covers_period start end_ r) directory with
  | Some r => Some r
  | None => find (fun r => String.eqb (Cur_Abbreviation r) code
                           && covers_period start start r) directory
  end.


(** The note shown when no record is picked. *)
Definition unresolved_note (currency_map : list CurrencyRecord) (code : string)
    (start end_ : date) : Message :=
  if empty (rows_for currency_map code) then st_warning (NotInList code)
  else st_info (NoCurId code start end_).

(** What follows the resolution of [code] to the record [r]
    (lines 109-120). *)
Definition fetch_resolved (upstream : nat -> Request -> NetReply)
    (start end_ : date) (series : list Series) (code : string)
    (r : CurrencyRecord) : M (list Series) :=
  let cur_start := Z.max start (Cur_DateStart r) in
  let cur_end := Z.min end_ (Cur_DateEnd r) in
  df_dyn <- chunked_dynamics_fetch upstream (Cur_ID r) cur_start cur_end ;;
  if empty df_dyn then
    show (st_info (NoDynamics code cur_start cur_end)) ;;; ret series
  else ret (series ++ [(code, df_dyn)]).

(** The session after one more message. *)
Definition after_note (st : Session) (msg : Message) : Session :=
  {| calls := calls st; ui := ui st ++ [msg] |}.

(** Upstream served the row [p] in the body of a reply, neither a 404 nor
    an error, to a request for [cur_id] recorded in the session. *)
Definition served (upstream : nat -> Request -> NetReply) (st : Session)
    (cur_id : Z) (p : RatePoint) : Prop :=
  exists k req status body,
    nth_error (calls st) k = Some req /\ req_cur_id req = cur_id /\
    upstream k req = Reply status (Some body) /\
    status <> 404 /\ ~ 400 <= status < 600 /\ In p body.

(** The rows a reply contributes to the series. *)
Definition reply_rows (rep : NetReply) : DataFrame := concat (reply_chunk rep).

(** Every collected frame belongs to a directory record of its code, and
    holds only rows that upstream served for that record's identifier. *)
Definition series_served (upstream : nat -> Request -> NetReply)
    (currency_map : list CurrencyRecord) (st : Session) (series : list Series) : Prop :=
  Forall (fun s : Series =>
    NoDup (map Date (snd s)) /\
    exists r, In r currency_map /\ Cur_Abbreviation r = fst s /\
              forall p, In p (snd s) -> served upstream st (Cur_ID r) p) series.

(** [st'] continues [st]: the requests of [st], then possibly more. *)
Definition continues (st st' : Session) : Prop :=
  exists ws, calls st' = calls st ++ ws.

(** ** Sample data *)

Definition fresh : Session := {| calls := []; ui := [] |}.

(** 2023-01-01, 2023-01-03 and 2024-02-04 (the 400th day from 2023-01-01). *)
Definition jan_1_2023 : date := 738521.
Definition jan_3_2023 : date := 738523.
Definition feb_4_2024 : date := 738920.

Definition usd_old : CurrencyRecord :=
  {| Cur_ID := 145; Cur_Abbreviation := "USD"%string; Cur_Scale := 1; Cur_Name := "US Dollar"%string;
     Cur_DateStart := 726833; Cur_DateEnd := 737979 |}.
Definition usd : CurrencyRecord :=
  {| Cur_ID := 431; Cur_Abbreviation := "USD"%string; Cur_Scale := 1; Cur_Name := "US Dollar"%string;
     Cur_DateStart := 737980; Cur_DateEnd := 748383 |}.
Definition eur : CurrencyRecord :=
  {| Cur_ID := 451; Cur_Abbreviation := "EUR"%string; Cur_Scale := 1; Cur_Name := "Euro"%string;
     Cur_DateStart := 737980; Cur_DateEnd := 748383 |}.
Definition rub : CurrencyRecord :=
  {| Cur_ID := 456; Cur_Abbreviation := "RUB"%string; Cur_Scale := 100; Cur_Name := "Russian Ruble"%string;
     Cur_DateStart := 737980; Cur_DateEnd := 748383 |}.
Definition directory : list CurrencyRecord := [usd_old; usd; eur; rub].

(** Rates 2.52 and 2.53, and the two rows served for early January 2023. *)
Definition rate_2_52 : float64 := Eval vm_compute in decimal 252 2.
Definition rate_2_53 : float64 := Eval vm_compute in decimal 253 2.
Definition january_rows : list RatePoint :=
  [ {| Date := jan_1_2023; Cur_OfficialRate := rate_2_52 |};
    {| Date := jan_3_2023; Cur_OfficialRate := rate_2_53 |} ].

(** An upstream with data for early January 2023 only. *)
Definition january_upstream : nat -> Request -> NetReply :=
  fun _ req =>
    if (startdate req <=? jan_1_2023) && (jan_1_2023 <=? enddate req)
    then Reply 200 (Some january_rows)
    else Reply 404 None.

(** The same, with a server error on every request for USD (431). *)
Definition usd_down : nat -> Request -> NetReply :=
  fun k req =>
    if req_cur_id req =? 431 then Reply 500 None else january_upstream k req.

(** An upstream with no data at all. *)
Definition no_data : nat -> Request -> NetReply := fun _ _ => Reply 404 None.

(** Snapshot rows for EUR: 3.50 today, 3.00 or 0.0 on the compare date. *)
Definition rate_3_50 : float64 := Eval vm_compute in decimal 350 2.
Definition rate_3_00 : float64 := Eval vm_compute in decimal 300 2.
Definition eur_on (d : date) (rate : float64) : SnapshotRow :=
  {| snap_Abbreviation := "EUR"%string; snap_Name := "Euro"%string; snap_Scale := 1;
     snap_Date := d; snap_OfficialRate := rate |}.

(** ** Further notions: the aggregator as a whole *)

(** [l] is [l'] with some elements left out, the order kept. *)
Inductive subseq {A : Type} : list A -> list A -> Prop :=
| subseq_nil : subseq [] []
| subseq_skip (x : A) (l l' : list A) : subseq l l' -> subseq l (x :: l')
| subseq_take (x : A) (l l' : list A) : subseq l l' -> subseq (x :: l) (x :: l').

(** The exceptions that a reply can make the fetcher raise. *)
Definition reply_exception (e : exn) : Prop :=
  e = RequestException \/ e = JSONDecodeError \/
  exists status, e = HTTPError status /\ 400 <= status < 600 /\ status <> 404.

(** The request is for a directory record of one of the codes, for at most
    [max_days] days inside both the period asked for and the validity window
    of the record. *)
Definition request_within (currency_map : list CurrencyRecord) (codes : list string)
    (start end_ : date) (req : Request) : Prop :=
  exists r, In r currency_map /\ In (Cur_Abbreviation r) codes /\
    req_cur_id req = Cur_ID r /\
    start <= startdate req /\ Cur_DateStart r <= startdate req /\
    startdate req <= enddate req /\
    enddate req <= end_ /\ enddate req <= Cur_DateEnd r /\
    enddate req - startdate req + 1 <= max_days.

(** Upstream serves no null rate, and a cell that holds a number: an absent
    row ([None]) and a null rate ([Some NaN]) both show as a missing cell. *)
Definition no_null_rates (upstream : nat -> Request -> NetReply) : Prop :=
  forall k req status body p,
    upstream k req = Reply status (Some body) -> In p body ->
    isna (Cur_OfficialRate p) = false.
Definition filled (cell : option float64) : bool :=
  match cell with
  | Some v => notna v
  | None => false
  end.

(** [pd.DataFrame()], and [df.empty] on a wide table. *)
Definition empty_table : WideTable := {| columns := []; rows := [] |}.
Definition table_empty (t : WideTable) : bool := empty (rows t).

(** A request for three codes, one of them unknown, and its outcome in
    January 2023. *)
Definition sample_codes : list string := ["USD"%string; "XYZ"%string; "EUR"%string].
Definition sample_table : WideTable :=
  {| columns := ["USD"%string; "EUR"%string];
     rows := [ (jan_1_2023, [Some rate_2_52; Some rate_2_52]);
               (jan_3_2023, [Some rate_2_53; Some rate_2_53]) ] |}.
Definition sample_session : Session :=
  {| calls := [ {| req_cur_id := 431; startdate := jan_1_2023; enddate := jan_3_2023 |};
                {| req_cur_id := 451; startdate := jan_1_2023; enddate := jan_3_2023 |} ];
     ui := [st_warning (NotInList "XYZ"%string)] |}.

(** The order of [sort_values("Code")]: codes compared as strings. *)
Definition code_le (a b : TableRow) : Prop := String.leb (Code a) (Code b) = true.

(** ** The chart section of the page (lines 234-281) *)



(** A row of the long frame made by [DataFrame.melt]. *)
Record LongRow := { long_Date : date; Currency : string; BYN_per_scale : option float64 }.

Fixpoint position (c : string) (cols : list string) : option nat :=
  match cols with
  | [] => None
  | c' :: rest =>
      if String.eqb c' c then Some O else option_map S (position c rest)
  end.

(** [df.melt(id_vars=["Date"], value_vars=value_vars, ...)] on a table whose
    labels occur once: [None] is the [KeyError] raised when a value variable
    is not a column; otherwise the rows of the first variable, then of the
    second, and so on. *)
Definition melt (df : WideTable) (value_vars : list string) : option (list LongRow) :=
  if forallb (fun v => existsb (String.eqb v) (columns df)) value_vars then
    Some (flat_map (fun v =>
            map (fun row =>
                   {| long_Date := fst row; Currency := v;
                      BYN_per_scale :=
                        match position v (columns df) with
                        | Some j => nth j (snd row) None
                        | None => None
                        end |}) (rows df)) value_vars)
  else None.

(** Line 246: the first plot keeps the selected codes that are columns. *)
Definition df_melt (df_rates_ts : WideTable) (selected_codes : list string) :=
  melt df_rates_ts
       (filter (fun c => existsb (String.eqb c) (columns df_rates_ts)) selected_codes).

(** Lines 241-243 and 267-281: the plot with exclusions, which the page
    reaches only when the frame is not empty. *)
Inductive replot_outcome :=
| no_history_only
| all_excluded_warning
| second_figure (df_melt2 : list LongRow)
| KeyError.

Definition replot (df_rates_ts : WideTable) (selected_codes excluded : list string)
  : replot_outcome :=
  if table_empty df_rates_ts then no_history_only
  else
    let shown := filter (fun c => negb (existsb (String.eqb c) excluded)) selected_codes in
    if empty shown then all_excluded_warning
    else match melt df_rates_ts shown with
         | Some df_melt2 => second_figure df_melt2
         | None => KeyError
         end.

(** ** [metals_section.py] *)

Module Metals.

(** An item of [GET /metals] and a row of [GET /bankingots/prices/..], its
    date a day ordinal. *)
Record Metal := { Id : Z; Name : string }.
Record Price := { Date : date; Value : float64 }.

Inductive Request :=
| GetMetals
| GetPrices (metal_id : Z) (start end_ : date).

Inductive Reply (A : Type) :=
| NoReply
| HttpReply (status_code : Z) (json : option A).
Arguments NoReply {A}.
Arguments HttpReply {A} status_code json.

(** The two endpoints; the replies may depend on the number of requests
    issued before. *)
Record Api := {
  metals_api : nat -> Reply (list Metal);
  prices_api : nat -> Z -> date -> date -> Reply (list Price)
}.

Inductive Event :=
| st_header
| st_error
| st_info
| st_warning
| st_subheader (n : nat)
| st_dataframe (df : list Price)
| st_pyplot (df : list Price)
| st_download_csv (df : list Price)
| st_download_json (df : list Price).

Inductive page_exn :=
| Requests (e : exn)
| KeyError
| OutOfBoundsDatetime.

Inductive result (A : Type) :=
| Done (a : A)
| Failed (e : page_exn).
Arguments Done {A} a.
Arguments Failed {A} e.

Record Page := { calls : list Request; shown : list Event }.

Definition P (A : Type) := Page -> result A * Page.

Definition ret {A} (a : A) : P A := fun pg => (Done a, pg).
Definition raise {A} (e : page_exn) : P A := fun pg => (Failed e, pg).
Definition bind {A B} (m : P A) (k : A -> P B) : P B :=
  fun pg =>
    match m pg with
    | (Done a, pg') => k a pg'
    | (Failed e, pg') => (Failed e, pg')
    end.
Definition show (ev : Event) : P unit :=
  fun pg => (Done tt, {| calls := calls pg; shown := shown pg ++ [ev] |}).

(** [resp.raise_for_status()] then [resp.json()]. *)
Definition checked {A} (rep : Reply A) : P A :=
  match rep with
  | NoReply => raise (Requests RequestException)
  | HttpReply status body =>
      if (400 <=? status) && (status <? 600) then raise (Requests (HTTPError status))
      else match body with
           | Some data => ret data
           | None => raise (Requests JSONDecodeError)
           end
  end.

Definition fetch_metals (api : Api) : P (list Metal) :=
  fun pg =>
    checked (metals_api api (length (calls pg)))
            {| calls := calls pg ++ [GetMetals]; shown := shown pg |}.

Definition fetch_metal_prices (api : Api) (metal_id : Z) (start_date end_date : date)
  : P (list Price) :=
  fun pg =>
    checked (prices_api api (length (calls pg)) metal_id start_date end_date)
            {| calls := calls pg ++ [GetPrices metal_id start_date end_date];
               shown := shown pg |}.

(** A Python [dict] with string keys, in insertion order. *)
Definition dict := list (string * Z).
Fixpoint dict_set (d : dict) (k : string) (v : Z) : dict :=
  match d with
  | [] => [(k, v)]
  | (k', v') :: rest =>
      if String.eqb k' k then (k', v) :: rest else (k', v') :: dict_set rest k v
  end.
Definition dict_get (d : dict) (k : string) : option Z :=
  option_map snd (find (fun kv => String.eqb (fst kv) k) d).
Definition keys (d : dict) : list string := map fst d.

(** [{m["Name"]: m["Id"] for m in metals}] *)
Definition metals_dict (metals : list Metal) : dict :=
  fold_left (fun d m => dict_set d (Name m) (Id m)) metals [].

(** [pd.to_datetime(df["Date"])]: nanosecond timestamps reach from
    1677-09-22 to 2262-04-11; a date outside raises. *)
Definition timestamp_min : date := 612412.
Definition timestamp_max : date := 825914.
Definition in_bounds (d : date) : bool := (timestamp_min <=? d) && (d <=? timestamp_max).
Definition to_datetime (data : list Price) : P (list Price) :=
  if forallb (fun p => in_bounds (Date p)) data then ret data
  else raise OutOfBoundsDatetime.

(** [df.sort_values("Date")], the rows of an equal date staying in the order
    of the reply. *)
Fixpoint insert_by_date (p : Price) (df : list Price) : list Price :=
  match df with
  | [] => [p]
  | q :: rest => if Date q <? Date p then q :: insert_by_date p rest else p :: q :: rest
  end.
Fixpoint sort_values (df : list Price) : list Price :=
  match df with
  | [] => []
  | p :: rest => insert_by_date p (sort_values rest)
  end.

(** [metals_section()], with the widgets as inputs: [selectbox] gives the
    option chosen among those offered ([None] when there is none), and
    [start_date], [end_date] are the dates entered. *)
Definition metals_section (api : Api) (selectbox : list string -> option string)
    (start_date end_date : date) : P unit :=
  bind (show st_header) (fun _ =>
  bind (fetch_metals api) (fun metals =>
  let metals_dict := metals_dict metals in
  match selectbox (keys metals_dict) with
  | None => raise KeyError
  | Some selected_metal =>
      match dict_get metals_dict selected_metal with
      | None => raise KeyError
      | Some metal_id =>
          if start_date >? end_date then show st_error
          else
            bind (show st_info) (fun _ =>
            bind (fetch_metal_prices api metal_id start_date end_date) (fun data =>
            if empty data then show st_warning
            else
              bind (to_datetime data) (fun df =>
              let df := sort_values df in
              bind (show (st_subheader 1)) (fun _ =>
              bind (show (st_dataframe df)) (fun _ =>
              bind (show (st_subheader 2)) (fun _ =>
              bind (show (st_pyplot df)) (fun _ =>
              bind (show (st_subheader 3)) (fun _ =>
              bind (show (st_download_csv df)) (fun _ =>
              show (st_download_json df))))))))))
      end
  end)).

(** The widget offers what it was given. *)
Definition selectbox_ok (selectbox : list string -> option string) : Prop :=
  forall options,
    match selectbox options with
    | Some x => In x options
    | None => options = []
    end.

(** Sample data: two entries named alike, and prices out of order. *)
Definition pick_first (options : list string) : option string := hd_error options.
Definition sample_metals : list Metal :=
  [ {| Id := 0; Name := "Gold"%string |};
    {| Id := 1; Name := "Silver"%string |};
    {| Id := 5; Name := "Gold"%string |} ].
Definition sample_prices : list Price :=
  [ {| Date := 738523; Value := S754_zero false |};
    {| Date := 738521; Value := S754_zero false |} ].
Definition sample_api : Api :=
  {| metals_api := fun _ => HttpReply 200 (Some sample_metals);
     prices_api := fun _ metal_id _ _ =>
       if metal_id =? 5 then HttpReply 200 (Some sample_prices)
       else HttpReply 404 None |}.
Definition blank : Page := {| calls := []; shown := [] |}.

End Metals.

(** A directory with a discontinued currency, asked for with USD. *)
Definition ltl : CurrencyRecord :=
  {| Cur_ID := 27; Cur_Abbreviation := "LTL"%string; Cur_Scale := 1;
     Cur_Name := "Lithuanian Litas"%string;
     Cur_DateStart := 726833; Cur_DateEnd := 735598 |}.
Definition selected_with_old : list string := ["LTL"%string; "USD"%string].

(** What [checked] raises on a reply of the metals endpoints, if anything. *)
Definition metals_failure {A} (rep : Metals.Reply A) : option exn :=
  match rep with
  | Metals.NoReply => Some RequestException
  | Metals.HttpReply status body =>
      if (400 <=? status) && (status <? 600) then Some (HTTPError status)
      else match body with
           | Some _ => None
           | None => Some JSONDecodeError
           end
  end.

(** The nine things shown for a non-empty price frame. *)
Definition metals_display (df : list Metals.Price) : list Metals.Event :=
  [ Metals.st_info; Metals.st_subheader 1; Metals.st_dataframe df;
    Metals.st_subheader 2; Metals.st_pyplot df;
    Metals.st_subheader 3; Metals.st_download_csv df; Metals.st_download_json df ].

(** A widget on which Silver is chosen. *)
Definition pick_silver (options : list string) : option string := Some "Silver"%string.

(** * Properties *)

(** ** Date ranges and the window partition *)

Lemma days_from_app (n m : nat) (a : date) :
  days_from a (n + m) = days_from a n ++ days_from (a + Z.of_nat n) m.
Proof.
  revert a; induction n as [|n IH]; intros a.
  - simpl. f_equal. lia.
  - cbn [Nat.add days_from app]. rewrite IH. do 3 f_equal. lia.
Qed.

Lemma days_from_length (n : nat) (a : date) : length (days_from a n) = n.
Proof. revert a; induction n; intros; simpl; auto. Qed.

Lemma in_days_from (n : nat) (a d : date) :
  In d (days_from a n) <-> a <= d < a + Z.of_nat n.
Proof.
  revert a; induction n as [|n IH]; intros a; simpl.
  - lia.
  - rewrite IH. lia.
Qed.

Lemma date_range_split (a b c : date) :
  a <= b + 1 -> b <= c ->
  date_range a b ++ date_range (b + 1) c = date_range a c.
Proof.
  intros Hab Hbc. unfold date_range.
  replace (Z.to_nat (c - a + 1))
    with (Z.to_nat (b - a + 1) + Z.to_nat (c - (b + 1) + 1))%nat by lia.
  rewrite days_from_app. do 2 f_equal. lia.
Qed.

Lemma date_range_empty (a b : date) : b < a -> date_range a b = [].
Proof.
  intros H. unfold date_range.
  replace (Z.to_nat (b - a + 1)) with O by lia. reflexivity.
Qed.

Lemma in_date_range (a b d : date) : In d (date_range a b) <-> a <= d <= b.
Proof. unfold date_range. rewrite in_days_from. lia. Qed.

Lemma n_windows_bounds (start end_ : date) :
  start <= end_ ->
  let n := Z.of_nat (n_windows start end_) in
  1 <= n /\ start + 365 * (n - 1) <= end_ < start + 365 * n.
Proof.
  intros H. unfold n_windows, max_days. cbv zeta.
  pose proof (Z.div_mod (end_ - start) 365 ltac:(lia)) as E.
  pose proof (Z.mod_pos_bound (end_ - start) 365 ltac:(lia)) as B.
  assert (0 <= (end_ - start) / 365) by (apply Z.div_pos; lia).
  rewrite Z2Nat.id by lia. lia.
Qed.

Lemma n_windows_empty (start end_ : date) :
  end_ < start -> n_windows start end_ = O.
Proof.
  intros H. unfold n_windows, max_days.
  assert ((end_ - start) / 365 < 0) by (apply Z.div_lt_upper_bound; lia).
  lia.
Qed.

Lemma n_windows_le_days (start end_ : date) :
  start <= end_ -> Z.of_nat (n_windows start end_) <= end_ - start + 1.
Proof.
  intros H. pose proof (n_windows_bounds start end_ H) as B. cbv zeta in B. lia.
Qed.

Lemma nth_window_shift (cur_id : Z) (s end_ : date) (k : nat) :
  nth_window cur_id (s + 365) end_ k = nth_window cur_id s end_ (S k).
Proof. unfold nth_window, max_days. f_equal; lia. Qed.

Lemma map_seq_shift {A} (f : nat -> A) (n : nat) :
  map f (seq 1 n) = map (fun k => f (S k)) (seq 0 n).
Proof. rewrite <- seq_shift, map_map. reflexivity. Qed.

Lemma firstn_seq_min (m : nat) : forall a n, firstn m (seq a n) = seq a (Nat.min m n).
Proof.
  induction m as [|m IH]; intros a [|n]; simpl; auto. now rewrite IH.
Qed.

Lemma flat_map_seq_shift {A} (f : nat -> list A) (n : nat) :
  flat_map f (seq 1 n) = flat_map (fun k => f (S k)) (seq 0 n).
Proof.
  rewrite <- seq_shift, !flat_map_concat_map, map_map. reflexivity.
Qed.

(** The windows are non-empty, at most [max_days] long, inside the range. *)
Lemma nth_window_shape (cur_id : Z) (start end_ : date) (k : nat) :
  start <= end_ -> (k < n_windows start end_)%nat ->
  let w := nth_window cur_id start end_ k in
  req_cur_id w = cur_id /\
  start <= startdate w /\ startdate w <= enddate w /\ enddate w <= end_ /\
  enddate w - startdate w + 1 <= max_days.
Proof.
  intros H Hk. pose proof (n_windows_bounds start end_ H) as B. cbv zeta in B.
  unfold nth_window, max_days; cbn [req_cur_id startdate enddate]. lia.
Qed.

(** Taken in order, the windows list every day of the range once. *)
Lemma windows_cover_from (cur_id : Z) (end_ : date) (n : nat) :
  forall s, s <= end_ ->
    s + 365 * (Z.of_nat n - 1) <= end_ < s + 365 * Z.of_nat n ->
    flat_map window_days (map (nth_window cur_id s end_) (seq 0 n))
    = date_range s end_.
Proof.
  induction n as [|n IH]; intros s Hs B.
  - lia.
  - cbn [seq map flat_map]. rewrite map_seq_shift.
    destruct n as [|n'].
    + cbn [seq map flat_map]. rewrite app_nil_r.
      unfold window_days, nth_window, max_days; cbn [startdate enddate].
      f_equal; lia.
    + rewrite (map_ext _ (nth_window cur_id (s + 365) end_))
        by (intros; symmetry; apply nth_window_shift).
      rewrite IH by lia.
      unfold window_days at 1. unfold nth_window, max_days; cbn [startdate enddate].
      replace (s + 365 * Z.of_nat 0) with s by lia.
      replace (Z.min (s + (365 - 1)) end_) with (s + 364) by lia.
      replace (s + 365) with (s + 364 + 1) by lia.
      apply date_range_split; lia.
Qed.

Lemma windows_cover (cur_id : Z) (start end_ : date) :
  start <= end_ ->
  flat_map window_days (windows cur_id start end_) = date_range start end_.
Proof.
  intros H. pose proof (n_windows_bounds start end_ H) as B. cbv zeta in B.
  apply windows_cover_from; lia.
Qed.

(** ** The monad and the loop of [chunked_dynamics_fetch] *)

Lemma after_calls_nil (st : Session) : after_calls st [] = st.
Proof. destruct st; unfold after_calls; simpl. now rewrite app_nil_r. Qed.

Lemma after_calls_app (st : Session) (ws ws' : list Request) :
  after_calls (after_calls st ws) ws' = after_calls st (ws ++ ws').
Proof. unfold after_calls; simpl. now rewrite app_assoc. Qed.

Lemma after_calls_length (st : Session) (ws : list Request) :
  length (calls (after_calls st ws)) = (length (calls st) + length ws)%nat.
Proof. unfold after_calls; simpl. apply length_app. Qed.

Section Loop.

Variable upstream : nat -> Request -> NetReply.
Variable cur_id : Z.
Variable end_ : date.

Local Abbreviation reply_at := (reply_at upstream cur_id end_).

(** One pass: a request for the window starting at [s], then either an
    exception, or the next window start and the chunk kept. *)
Lemma loop_body_reply (s : date) (dfs : list DataFrame) (st : Session) :
  loop_body upstream cur_id end_ s dfs st =
  let w := nth_window cur_id s end_ 0 in
  match reply_exn (reply_at st s 0) with
  | Some e => (Raise e, after_calls st [w])
  | None => (Return (enddate w + 1, dfs ++ reply_chunk (reply_at st s 0)),
             after_calls st [w])
  end.
Proof.
  unfold reply_at, nth_window. cbv zeta. cbn [enddate].
  rewrite Nat.add_0_r, Z.mul_0_r, Z.add_0_r.
  unfold loop_body, bind, requests_get, after_calls. cbv zeta.
  destruct (upstream _ _) as [|status body]; cbn [reply_exn reply_chunk]; [reflexivity|].
  cbn [fst snd]. destruct (status =? 404) eqn:E404; cbn [orb].
  - unfold ret. destruct body; now rewrite app_nil_r.
  - unfold raise_for_status.
    destruct ((400 <=? status) && (status <? 600)); [reflexivity|].
    unfold ret, resp_json. destruct body as [chunk|]; [|reflexivity].
    unfold raise, ret. destruct chunk; cbn [empty]; [now rewrite app_nil_r | reflexivity].
Qed.

Lemma while_loop_done (fuel : nat) (s : date) (dfs : list DataFrame) (st : Session) :
  end_ < s -> while_loop upstream fuel cur_id end_ s dfs st = (Return dfs, st).
Proof.
  intros H. destruct fuel; cbn [while_loop];
    (replace (s <=? end_) with false by (symmetry; apply Z.leb_gt; lia)); reflexivity.
Qed.

Lemma windows_after_first (s s' : date) (n : nat) :
  (n = O \/ s' = s + 365) ->
  map (nth_window cur_id s' end_) (seq 0 n)
  = map (nth_window cur_id s end_) (seq 1 n).
Proof.
  intros [->| ->]; [reflexivity|].
  rewrite map_seq_shift. apply map_ext. intros; apply nth_window_shift.
Qed.

Lemma replies_after_first (st : Session) (s s' : date) (w : Request) (k : nat) :
  s' = s + 365 ->
  reply_at (after_calls st [w]) s' k = reply_at st s (S k).
Proof.
  intros ->. unfold reply_at. rewrite after_calls_length, nth_window_shift.
  f_equal. simpl. lia.
Qed.

(** When no reply makes the body raise, the loop asks for the [n] windows in
    turn and returns the chunks kept, in window order. *)
Lemma while_loop_ok (n : nat) :
  forall (fuel : nat) (s : date) (dfs : list DataFrame) (st : Session),
    (n <= fuel)%nat ->
    end_ < s + 365 * Z.of_nat n ->
    (1 <= Z.of_nat n -> s + 365 * (Z.of_nat n - 1) <= end_) ->
    (forall k, (k < n)%nat -> reply_exn (reply_at st s k) = None) ->
    while_loop upstream fuel cur_id end_ s dfs st =
    (Return (dfs ++ flat_map (fun k => reply_chunk (reply_at st s k)) (seq 0 n)),
     after_calls st (map (nth_window cur_id s end_) (seq 0 n))).
Proof.
  induction n as [|n IH]; intros fuel s dfs st Hfuel Hhi Hlo Hok.
  - cbn [seq map flat_map]. rewrite app_nil_r, after_calls_nil.
    apply while_loop_done. lia.
  - destruct fuel as [|fuel]; [lia|]. cbn [while_loop].
    replace (s <=? end_) with true by (symmetry; apply Z.leb_le; lia).
    unfold bind at 1. rewrite loop_body_reply. cbv zeta.
    rewrite (Hok O) by lia. cbn [fst snd].
    set (s' := enddate (nth_window cur_id s end_ 0) + 1).
    assert (Hs' : (n = O /\ end_ < s') \/ (n <> O /\ s' = s + 365)).
    { subst s'. unfold nth_window, max_days. cbn [enddate]. destruct n; [left|right]; lia. }
    clearbody s'. rewrite IH.
    + cbn [seq map flat_map]. rewrite after_calls_app, <- app_assoc. cbn [app].
      rewrite (windows_after_first s s') by tauto.
      do 3 f_equal. rewrite flat_map_seq_shift.
      destruct Hs' as [[-> _]|[_ E]]; [reflexivity|].
      f_equal. apply flat_map_ext. intros k. now rewrite (replies_after_first st s s') by exact E.
    + lia.
    + destruct Hs' as [[? ?]|[? ?]]; lia.
    + destruct Hs' as [[? ?]|[? ?]]; lia.
    + intros k Hk. destruct Hs' as [[? ?]|[_ E]]; [lia|].
      rewrite (replies_after_first st s s') by exact E. apply Hok. lia.
Qed.

(** When the reply to window [j] is the first to make the body raise, the
    loop stops there: the exception goes to the caller and no later window
    is asked for. *)
Lemma while_loop_raise (j : nat) :
  forall (fuel : nat) (s : date) (dfs : list DataFrame) (st : Session) (e : exn),
    (j < fuel)%nat ->
    s + 365 * Z.of_nat j <= end_ ->
    (forall k, (k < j)%nat -> reply_exn (reply_at st s k) = None) ->
    reply_exn (reply_at st s j) = Some e ->
    while_loop upstream fuel cur_id end_ s dfs st =
    (Raise e, after_calls st (map (nth_window cur_id s end_) (seq 0 (S j)))).
Proof.
  induction j as [|j IH]; intros fuel s dfs st e Hfuel Hin Hok Hbad;
    (destruct fuel as [|fuel]; [lia|]); cbn [while_loop];
    (replace (s <=? end_) with true by (symmetry; apply Z.leb_le; lia));
    unfold bind at 1; rewrite loop_body_reply; cbv zeta.
  - rewrite Hbad. reflexivity.
  - rewrite (Hok O) by lia. cbn [fst snd].
    assert (Hs' : enddate (nth_window cur_id s end_ 0) + 1 = s + 365).
    { unfold nth_window, max_days. cbn [enddate]. lia. }
    rewrite Hs'. rewrite (IH fuel (s + 365) _ _ e).
    + rewrite after_calls_app. cbn [app].
      rewrite (windows_after_first s (s + 365)) by tauto. reflexivity.
    + lia.
    + lia.
    + intros k Hk. rewrite (replies_after_first st s) by reflexivity. apply Hok. lia.
    + rewrite (replies_after_first st s) by reflexivity. exact Hbad.
Qed.

(** Either no reply among the first [n] raises, or there is a first one. *)
Lemma first_raise (st : Session) (s : date) (n : nat) :
  (forall k, (k < n)%nat -> reply_exn (reply_at st s k) = None) \/
  (exists j e, (j < n)%nat /\
     (forall k, (k < j)%nat -> reply_exn (reply_at st s k) = None) /\
     reply_exn (reply_at st s j) = Some e).
Proof.
  induction n as [|n [IH|(j & e & Hj & Hok & Hbad)]].
  - left. intros; lia.
  - destruct (reply_exn (reply_at st s n)) as [e|] eqn:E.
    + right. exists n, e. auto.
    + left. intros k Hk. destruct (Nat.eq_dec k n) as [->|]; [exact E|apply IH; lia].
  - right. exists j, e. auto.
Qed.

End Loop.

(** ** Runs of [chunked_dynamics_fetch] *)

Section Fetch.

Variable upstream : nat -> Request -> NetReply.
Variable cur_id : Z.
Variables start end_ : date.
Variable st : Session.

Local Abbreviation reply k := (reply_at upstream cur_id end_ st start k).
Local Abbreviation n := (n_windows start end_).

Lemma fuel_enough : start <= end_ -> (n <= Z.to_nat (end_ - start + 1))%nat.
Proof. intros H. pose proof (n_windows_le_days start end_ H). lia. Qed.

(** No reply raises: every window is asked for, in order, and the chunks
    kept are merged. *)
Lemma fetch_ok :
  start <= end_ ->
  (forall k, (k < n)%nat -> reply_exn (reply k) = None) ->
  chunked_dynamics_fetch upstream cur_id start end_ st =
  (Return (merge_chunks (flat_map (fun k => reply_chunk (reply k)) (seq 0 n))),
   after_calls st (windows cur_id start end_)).
Proof.
  intros H Hok. unfold chunked_dynamics_fetch.
  replace (end_ <? start) with false by (symmetry; apply Z.ltb_ge; lia).
  pose proof (n_windows_bounds start end_ H) as B. cbv zeta in B.
  unfold bind. rewrite (while_loop_ok upstream cur_id end_ n); [reflexivity|lia..|exact Hok].
Qed.

(** The reply to window [j] is the first to raise: the fetch raises the same
    exception after asking for windows [0..j] only. *)
Lemma fetch_raise (j : nat) (e : exn) :
  start <= end_ -> (j < n)%nat ->
  (forall k, (k < j)%nat -> reply_exn (reply k) = None) ->
  reply_exn (reply j) = Some e ->
  chunked_dynamics_fetch upstream cur_id start end_ st =
  (Raise e, after_calls st (firstn (S j) (windows cur_id start end_))).
Proof.
  intros H Hj Hok Hbad. unfold chunked_dynamics_fetch.
  replace (end_ <? start) with false by (symmetry; apply Z.ltb_ge; lia).
  pose proof (n_windows_bounds start end_ H) as B. cbv zeta in B.
  pose proof (fuel_enough H) as F.
  unfold bind. rewrite (while_loop_raise upstream cur_id end_ j _ _ _ _ e); [|lia|nia|exact Hok|exact Hbad].
  unfold windows. rewrite firstn_map, firstn_seq_min.
  replace (Nat.min (S j) n) with (S j) by lia. reflexivity.
Qed.

(** Whatever the upstream replies, the fetch ends with a value or a Python
    exception, after asking for the first [m] windows, for some [m]. *)
Lemma fetch_total :
  start <= end_ ->
  exists out m,
    chunked_dynamics_fetch upstream cur_id start end_ st =
      (out, after_calls st (firstn m (windows cur_id start end_))) /\
    (1 <= m <= n)%nat /\
    out <> OutOfFuel.
Proof.
  intros H. pose proof (n_windows_bounds start end_ H) as B. cbv zeta in B.
  destruct (first_raise upstream cur_id end_ st start n) as [Hok|(j & e & Hj & Hok & Hbad)].
  - rewrite (fetch_ok H Hok). eexists _, n.
    rewrite firstn_all2 by (unfold windows; rewrite length_map, length_seq; lia).
    split; [reflexivity|]. split; [lia|discriminate].
  - rewrite (fetch_raise j e H Hj Hok Hbad). eexists _, (S j).
    split; [reflexivity|]. split; [lia|discriminate].
Qed.

End Fetch.

(** ** Merging the chunks: [drop_duplicates] and [sort_values] *)

Lemma existsb_eqb_In (d : date) (l : list date) :
  existsb (Z.eqb d) l = true <-> In d l.
Proof.
  rewrite existsb_exists. split.
  - intros (x & Hx & E). apply Z.eqb_eq in E. now subst.
  - intros H. exists d. split; [exact H|apply Z.eqb_refl].
Qed.

Lemma drop_duplicates_from_spec (df : DataFrame) :
  forall seen,
    let out := drop_duplicates_from seen df in
    NoDup (map Date out) /\
    (forall p, In p out -> In p df /\ ~ In (Date p) seen) /\
    (forall d, first_at out d = if existsb (Z.eqb d) seen then None else first_at df d).
Proof.
  induction df as [|p rest IH]; intros seen; cbn [drop_duplicates_from].
  - cbv zeta. cbn. repeat split; try constructor; try tauto.
    intros d. now destruct (existsb _ _).
  - destruct (existsb (Z.eqb (Date p)) seen) eqn:E.
    + destruct (IH seen) as (ND & Hin & Hfirst). cbv zeta. repeat split; auto.
      * right. now apply Hin.
      * now apply Hin.
      * intros d. rewrite Hfirst. destruct (existsb (Z.eqb d) seen) eqn:Ed; [reflexivity|].
        cbn [first_at find]. destruct (Date p =? d) eqn:Epd; [|reflexivity].
        apply Z.eqb_eq in Epd. subst d. congruence.
    + destruct (IH (Date p :: seen)) as (ND & Hin & Hfirst). cbv zeta.
      assert (Hnot : ~ In (Date p) seen).
      { intros Hc. apply existsb_eqb_In in Hc. congruence. }
      repeat split.
      * cbn [map]. constructor; [|exact ND].
        intros Hc. apply in_map_iff in Hc. destruct Hc as (q & Eq & Hq).
        apply Hin in Hq. destruct Hq as [_ Hq]. apply Hq. left. auto.
      * destruct H as [<-|H]; [now left|]. right. now apply Hin.
      * destruct H as [<-|H]; [exact Hnot|].
        apply Hin in H. destruct H as [_ H]. intros Hc. apply H. now right.
      * intros d. cbn [first_at find]. fold (first_at (drop_duplicates_from (Date p :: seen) rest) d).
        fold (first_at rest d). rewrite Hfirst. cbn [existsb].
        rewrite (Z.eqb_sym d (Date p)).
        destruct (Date p =? d) eqn:Epd.
        -- apply Z.eqb_eq in Epd. subst d. now rewrite E.
        -- reflexivity.
Qed.

Lemma insert_by_date_perm (p : RatePoint) (df : DataFrame) :
  Permutation (insert_by_date p df) (p :: df).
Proof.
  induction df as [|q rest IH]; cbn [insert_by_date]; [reflexivity|].
  destruct (Date p <? Date q); [reflexivity|].
  rewrite IH. apply perm_swap.
Qed.

Lemma sort_values_perm (df : DataFrame) : Permutation (sort_values df) df.
Proof.
  induction df as [|p rest IH]; cbn [sort_values]; [reflexivity|].
  rewrite insert_by_date_perm. now constructor.
Qed.

Lemma insert_by_date_sorted (p : RatePoint) (df : DataFrame) :
  StronglySorted Z.lt (map Date df) -> ~ In (Date p) (map Date df) ->
  StronglySorted Z.lt (map Date (insert_by_date p df)).
Proof.
  induction df as [|q rest IH]; intros HS Hnot; cbn [insert_by_date map].
  - repeat constructor.
  - cbn [map] in HS, Hnot. apply StronglySorted_inv in HS. destruct HS as [HS HF].
    destruct (Date p <? Date q) eqn:E; cbn [map].
    + apply Z.ltb_lt in E. constructor; [constructor; assumption|].
      constructor; [exact E|]. eapply Forall_impl; [|exact HF].
      intros d Hd. cbv beta in Hd. lia.
    + apply Z.ltb_ge in E. constructor.
      * apply IH; [exact HS|]. intros Hc. apply Hnot. now right.
      * apply (Permutation_Forall (Permutation_map Date (Permutation_sym (insert_by_date_perm p rest)))).
        cbn [map]. constructor; [|exact HF].
        assert (Date q <> Date p) by (intros Hc; apply Hnot; now left). lia.
Qed.

Lemma sort_values_sorted (df : DataFrame) :
  NoDup (map Date df) -> StronglySorted Z.lt (map Date (sort_values df)).
Proof.
  induction df as [|p rest IH]; intros ND; cbn [sort_values map].
  - constructor.
  - cbn [map] in ND. apply NoDup_cons_iff in ND. destruct ND as [Hnot ND].
    apply insert_by_date_sorted; [now apply IH|].
    intros Hc. apply Hnot.
    eapply Permutation_in; [apply Permutation_map, sort_values_perm|exact Hc].
Qed.

Lemma first_at_insert (p : RatePoint) (df : DataFrame) (d : date) :
  ~ In (Date p) (map Date df) ->
  first_at (insert_by_date p df) d = if Date p =? d then Some p else first_at df d.
Proof.
  induction df as [|q rest IH]; intros Hnot; cbn [insert_by_date].
  - reflexivity.
  - cbn [map] in Hnot. destruct (Date p <? Date q); [reflexivity|].
    cbn [first_at find]. fold (first_at (insert_by_date p rest) d). fold (first_at rest d).
    rewrite IH by (intros Hc; apply Hnot; now right).
    destruct (Date q =? d) eqn:Eq; [|reflexivity].
    destruct (Date p =? d) eqn:Ep; [|reflexivity].
    apply Z.eqb_eq in Eq, Ep. exfalso. apply Hnot. left. congruence.
Qed.

Lemma first_at_sort_values (df : DataFrame) (d : date) :
  NoDup (map Date df) -> first_at (sort_values df) d = first_at df d.
Proof.
  induction df as [|p rest IH]; intros ND; cbn [sort_values]; [reflexivity|].
  cbn [map] in ND. apply NoDup_cons_iff in ND. destruct ND as [Hnot ND].
  rewrite first_at_insert.
  - rewrite IH by exact ND. reflexivity.
  - intros Hc. apply Hnot.
    eapply Permutation_in; [apply Permutation_map, sort_values_perm|exact Hc].
Qed.

Lemma merge_chunks_eq (dfs : list DataFrame) :
  merge_chunks dfs = sort_values (drop_duplicates (concat dfs)).
Proof. destruct dfs; reflexivity. Qed.

(** The merged frame has strictly increasing dates, one row per date, and
    for each date the first row of that date in concatenation order. *)
Lemma merge_chunks_spec (dfs : list DataFrame) :
  strictly_increasing (merge_chunks dfs) /\
  NoDup (map Date (merge_chunks dfs)) /\
  (forall d, first_at (merge_chunks dfs) d = first_at (concat dfs) d) /\
  (forall p, In p (merge_chunks dfs) -> In p (concat dfs)).
Proof.
  rewrite merge_chunks_eq. unfold drop_duplicates.
  destruct (drop_duplicates_from_spec (concat dfs) []) as (ND & Hin & Hfirst).
  cbv zeta in *. repeat split.
  - now apply sort_values_sorted.
  - eapply Permutation_NoDup; [|exact ND].
    apply Permutation_map, Permutation_sym, sort_values_perm.
  - intros d. rewrite first_at_sort_values by exact ND. now rewrite Hfirst.
  - intros p Hp. apply Hin. eapply Permutation_in; [apply sort_values_perm|exact Hp].
Qed.

(** ** The resolver step of [rates_for_currencies] *)

Lemma hd_filter_filter {A} (f g : A -> bool) (l : list A) :
  hd_error (filter f (filter g l)) = find (fun x => g x && f x) l.
Proof.
  induction l as [|x l IH]; cbn [filter find]; [reflexivity|].
  destruct (g x); cbn [andb filter]; [|exact IH].
  destruct (f x); [reflexivity|exact IH].
Qed.

Lemma empty_hd_error {A} (l : list A) : empty l = true <-> hd_error l = None.
Proof. destruct l; cbn; split; congruence. Qed.

(** The code picks the record that the specification's resolver picks. *)
Lemma resolved_row_spec (currency_map : list CurrencyRecord) (code : string)
    (start end_ : date) :
  resolved_row currency_map code start end_ = resolve_spec currency_map code start end_.
Proof.
  unfold resolved_row, resolve_spec, valid_rows, rows_for.
  rewrite <- !hd_filter_filter.
  destruct (filter (covers_period start end_) _) as [|r0 rest]; reflexivity.
Qed.

Section Resolution.

Variable upstream : nat -> Request -> NetReply.
Variable currency_map : list CurrencyRecord.
Variables start end_ : date.

Lemma process_code_unresolved (series : list Series) (code : string) (st : Session) :
  resolved_row currency_map code start end_ = None ->
  process_code upstream currency_map start end_ series code st =
  (Return series, after_note st (unresolved_note currency_map code start end_)).
Proof.
  unfold resolved_row, process_code, unresolved_note. cbv zeta. intros H.
  destruct (empty (rows_for currency_map code)); [reflexivity|].
  destruct (valid_rows _ _ _); [reflexivity|discriminate].
Qed.

Lemma process_code_resolved (series : list Series) (code : string) (st : Session)
    (r : CurrencyRecord) :
  resolved_row currency_map code start end_ = Some r ->
  process_code upstream currency_map start end_ series code st =
  fetch_resolved upstream start end_ series code r st.
Proof.
  unfold resolved_row, process_code, fetch_resolved. cbv zeta. intros H.
  destruct (empty (rows_for currency_map code)) eqn:E.
  - destruct (rows_for currency_map code); [discriminate H|discriminate E].
  - destruct (valid_rows _ _ _) as [|r0 rest]; [discriminate|].
    cbn in H. injection H as ->. reflexivity.
Qed.

End Resolution.

(** ** The aggregator: what reaches the series *)

Lemma continues_refl (st : Session) : continues st st.
Proof. exists []. now rewrite app_nil_r. Qed.

Lemma continues_trans (st1 st2 st3 : Session) :
  continues st1 st2 -> continues st2 st3 -> continues st1 st3.
Proof.
  intros [ws1 E1] [ws2 E2]. exists (ws1 ++ ws2). now rewrite E2, E1, app_assoc.
Qed.

Lemma continues_after_calls (st : Session) (ws : list Request) :
  continues st (after_calls st ws).
Proof. now exists ws. Qed.

Lemma continues_after_note (st : Session) (msg : Message) :
  continues st (after_note st msg).
Proof. exists []. cbn. now rewrite app_nil_r. Qed.

Lemma served_continues (upstream : nat -> Request -> NetReply) (st st' : Session)
    (cur_id : Z) (p : RatePoint) :
  continues st st' -> served upstream st cur_id p -> served upstream st' cur_id p.
Proof.
  intros [ws E] (k & req & status & body & Hk & Hid & Hrep & H404 & Herr & Hin).
  exists k, req, status, body. repeat split; auto.
  rewrite E. rewrite nth_error_app1; [exact Hk|].
  apply nth_error_Some. congruence.
Qed.

Lemma series_served_continues (upstream : nat -> Request -> NetReply)
    (currency_map : list CurrencyRecord) (st st' : Session) (series : list Series) :
  continues st st' -> series_served upstream currency_map st series ->
  series_served upstream currency_map st' series.
Proof.
  intros Hc. apply Forall_impl. intros s (ND & r & Hr & Hcode & Hp).
  split; [exact ND|].
  exists r. repeat split; auto. intros p Hin. eapply served_continues; eauto.
Qed.

Section Aggregator.

Variable upstream : nat -> Request -> NetReply.

(** A frame returned by the chunked fetcher holds only rows served by
    upstream for the identifier, and the session only grows. *)
Lemma fetch_served (cur_id : Z) (start end_ : date) (st st' : Session) (df : DataFrame) :
  chunked_dynamics_fetch upstream cur_id start end_ st = (Return df, st') ->
  continues st st' /\ ui st' = ui st /\ NoDup (map Date df) /\
  forall p, In p df -> served upstream st' cur_id p.
Proof.
  intros H. destruct (Z.lt_ge_cases end_ start) as [Hlt|Hge].
  - unfold chunked_dynamics_fetch in H.
    replace (end_ <? start) with true in H by (symmetry; apply Z.ltb_lt; lia).
    injection H as <- <-. split; [apply continues_refl|]. split; [reflexivity|].
    split; [constructor|]. intros p [].
  - destruct (first_raise upstream cur_id end_ st start (n_windows start end_))
      as [Hok|(j & e & Hj & Hok & Hbad)].
    + rewrite (fetch_ok upstream cur_id start end_ st Hge Hok) in H.
      injection H as <- <-. split; [apply continues_after_calls|]. split; [reflexivity|].
      split; [apply merge_chunks_spec|].
      intros p Hp. apply merge_chunks_spec in Hp.
      apply in_concat in Hp.
      destruct Hp as (chunk & Hchunk & Hp). apply in_flat_map in Hchunk.
      destruct Hchunk as (k & Hk & Hchunk). apply in_seq in Hk.
      unfold reply_at in Hchunk.
      destruct (upstream _ _) as [|status [body|]] eqn:Erep; cbn [reply_chunk] in Hchunk;
        try contradiction.
      destruct (status =? 404) eqn:E404; [contradiction|]. cbn [orb] in Hchunk.
      destruct (empty body); [contradiction|].
      destruct Hchunk as [<-|[]].
      assert (Hnoexn : reply_exn (Reply status (Some body)) = None).
      { rewrite <- Erep. apply (Hok k). lia. }
      cbn [reply_exn] in Hnoexn. rewrite E404 in Hnoexn.
      destruct ((400 <=? status) && (status <? 600)) eqn:Erange; [discriminate|].
      apply Z.eqb_neq in E404.
      assert (~ 400 <= status < 600).
      { intros [? ?]. apply andb_false_iff in Erange.
        destruct Erange as [Er|Er]; [apply Z.leb_gt in Er|apply Z.ltb_ge in Er]; lia. }
      exists (length (calls st) + k)%nat, (nth_window cur_id start end_ k), status, body.
      split; [|split; [reflexivity|split; [exact Erep|auto]]].
      unfold after_calls, windows; cbn [calls].
      rewrite nth_error_app2 by lia.
      replace (length (calls st) + k - length (calls st))%nat with k by lia.
      rewrite nth_error_map, nth_error_seq.
      replace (k <? n_windows start end_)%nat with true by (symmetry; apply Nat.ltb_lt; lia).
      reflexivity.
    + rewrite (fetch_raise upstream cur_id start end_ st j e Hge Hj Hok Hbad) in H.
      discriminate.
Qed.

Variable currency_map : list CurrencyRecord.
Variables start end_ : date.

Lemma resolved_row_in (code : string) (r : CurrencyRecord) :
  resolved_row currency_map code start end_ = Some r ->
  In r currency_map /\ Cur_Abbreviation r = code.
Proof.
  rewrite resolved_row_spec. unfold resolve_spec. intros H.
  assert (exists f, find (fun x => String.eqb (Cur_Abbreviation x) code && f x) currency_map = Some r)
    as [f Hf].
  { destruct (find _ currency_map) eqn:E in H.
    - injection H as ->. eauto.
    - eauto. }
  apply find_some in Hf. destruct Hf as [Hin Hb].
  apply andb_prop in Hb. destruct Hb as [Hb _]. apply String.eqb_eq in Hb. auto.
Qed.

Lemma process_code_served (series series' : list Series) (code : string) (st st' : Session) :
  process_code upstream currency_map start end_ series code st = (Return series', st') ->
  series_served upstream currency_map st series ->
  continues st st' /\ series_served upstream currency_map st' series'.
Proof.
  intros H HS.
  destruct (resolved_row currency_map code start end_) as [r|] eqn:E.
  - rewrite (process_code_resolved upstream _ _ _ _ _ _ r E) in H.
    unfold fetch_resolved, bind in H. cbv zeta in H.
    destruct (chunked_dynamics_fetch _ _ _ _ st) as [[df|e|] st1] eqn:F; try discriminate.
    apply fetch_served in F. destruct F as (Hc & _ & ND & Hserved).
    destruct (empty df).
    + unfold show, ret in H. injection H as <- <-.
      assert (Hc' : continues st (after_note st1 (st_info (NoDynamics code
                 (Z.max start (Cur_DateStart r)) (Z.min end_ (Cur_DateEnd r)))))).
      { eapply continues_trans; [exact Hc|apply continues_after_note]. }
      split; [exact Hc'|]. eapply series_served_continues; eauto.
    + unfold ret in H. injection H as <- <-. split; [exact Hc|].
      apply Forall_app. split; [eapply series_served_continues; eauto|].
      constructor; [|constructor]. split; [exact ND|]. exists r. cbn [fst snd].
      destruct (resolved_row_in code r E). auto.
  - rewrite (process_code_unresolved upstream _ _ _ _ _ _ E) in H.
    injection H as <- <-. split; [apply continues_after_note|].
    eapply series_served_continues; [apply continues_after_note|exact HS].
Qed.

Lemma for_codes_served (codes : list string) :
  forall (series series' : list Series) (st st' : Session),
    for_codes upstream currency_map start end_ codes series st = (Return series', st') ->
    series_served upstream currency_map st series ->
    continues st st' /\ series_served upstream currency_map st' series'.
Proof.
  induction codes as [|code rest IH]; intros series series' st st' H HS; cbn [for_codes] in H.
  - injection H as <- <-. split; [apply continues_refl|exact HS].
  - unfold bind in H.
    destruct (process_code _ _ _ _ series code st) as [[series1|e|] st1] eqn:P; try discriminate.
    destruct (process_code_served _ _ _ _ _ P HS) as [Hc1 HS1].
    destruct (IH _ _ _ _ H HS1) as [Hc2 HS2].
    split; [eapply continues_trans; eauto|exact HS2].
Qed.

(** An exception raised while one code is processed ends the whole loop:
    the codes after it are not processed. *)
Lemma for_codes_raise (pre post : list string) (code : string) :
  forall (series series1 : list Series) (st st1 st2 : Session) (e : exn),
    for_codes upstream currency_map start end_ pre series st = (Return series1, st1) ->
    process_code upstream currency_map start end_ series1 code st1 = (Raise e, st2) ->
    for_codes upstream currency_map start end_ (pre ++ code :: post) series st
    = (Raise e, st2).
Proof.
  induction pre as [|c pre IH]; intros series series1 st st1 st2 e Hpre Hcode;
    cbn [for_codes app] in *.
  - injection Hpre as <- <-. unfold bind. now rewrite Hcode.
  - unfold bind in *.
    destruct (process_code _ _ _ _ series c st) as [[s1|e1|] st'] eqn:P; try discriminate.
    eapply IH; eauto.
Qed.

End Aggregator.

(** ** The wide table *)

Lemma union_dates_in (l : list date) :
  forall seen d, In d (union_dates seen l) <-> In d l /\ ~ In d seen.
Proof.
  induction l as [|x l IH]; intros seen d; cbn [union_dates].
  - cbn. tauto.
  - destruct (existsb (Z.eqb x) seen) eqn:E.
    + apply existsb_eqb_In in E. rewrite IH. cbn [In].
      split; [tauto|]. intros [[->|H] Hn]; tauto.
    + assert (~ In x seen) by (rewrite <- existsb_eqb_In; congruence).
      cbn [In]. rewrite IH. cbn [In].
      destruct (Z.eq_dec x d) as [->|Hne]; [tauto|]. intuition congruence.
Qed.

Lemma insert_date_perm (d : date) (l : list date) : Permutation (insert_date d l) (d :: l).
Proof.
  induction l as [|e l IH]; cbn [insert_date]; [reflexivity|].
  destruct (d <? e); [reflexivity|]. rewrite IH. apply perm_swap.
Qed.

Lemma sort_dates_perm (l : list date) : Permutation (sort_dates l) l.
Proof.
  induction l as [|d l IH]; cbn [sort_dates]; [reflexivity|].
  rewrite insert_date_perm. now constructor.
Qed.

(** The rows of the table are those of the dates present in some frame, and
    the cell of a column at a date is the value of its frame at that date. *)
Lemma concat_axis1_rows (series : list Series) (d : date) (cells : list (option float64)) :
  In (d, cells) (rows (concat_axis1 series)) <->
  (exists s p, In s series /\ In p (snd s) /\ Date p = d) /\
  cells = map (fun s => at_date (snd s) d) series.
Proof.
  unfold concat_axis1; cbn [rows]. rewrite in_map_iff. split.
  - intros (d' & E & Hin). injection E as -> <-. split; [|reflexivity].
    apply (Permutation_in _ (sort_dates_perm _)) in Hin.
    apply union_dates_in in Hin. destruct Hin as [Hin _].
    apply in_flat_map in Hin. destruct Hin as (s & Hs & Hd).
    apply in_map_iff in Hd. destruct Hd as (p & Hp & Hin). eauto.
  - intros [(s & p & Hs & Hp & Hd) ->]. exists d. split; [reflexivity|].
    apply (Permutation_in _ (Permutation_sym (sort_dates_perm _))).
    apply union_dates_in. split; [|tauto].
    apply in_flat_map. exists s. split; [exact Hs|].
    apply in_map_iff. eauto.
Qed.

Lemma first_at_unique (df : DataFrame) (p : RatePoint) :
  NoDup (map Date df) -> In p df -> first_at df (Date p) = Some p.
Proof.
  induction df as [|q rest IH]; intros ND Hin; [contradiction|].
  cbn [map] in ND. apply NoDup_cons_iff in ND. destruct ND as [Hnot ND].
  cbn [first_at find]. destruct Hin as [->|Hin].
  - now rewrite Z.eqb_refl.
  - destruct (Date q =? Date p) eqn:E.
    + apply Z.eqb_eq in E. exfalso. apply Hnot. rewrite E. now apply in_map.
    + now apply IH.
Qed.

Lemma at_date_some (df : DataFrame) (d : date) (v : float64) :
  at_date df d = Some v -> In {| Date := d; Cur_OfficialRate := v |} df.
Proof.
  unfold at_date. destruct (find _ df) as [p|] eqn:E; [|discriminate].
  cbn. intros [= <-]. apply find_some in E. destruct E as [Hin Hd].
  apply Z.eqb_eq in Hd. subst d. now destruct p.
Qed.

(** ** The comparison table *)





Lemma table_row_inv (r : SnapshotRow) (x : float64) :
  Code (table_row r x) = snap_Abbreviation r /\ Rate_7d_ago (table_row r x) = x.
Proof. split; reflexivity. Qed.

Lemma insert_by_code_perm (r : TableRow) (l : list TableRow) :
  Permutation (insert_by_code r l) (r :: l).
Proof.
  induction l as [|q l IH]; cbn [insert_by_code]; [reflexivity|].
  destruct (String.ltb (Code q) (Code r)); [|reflexivity]. rewrite IH. apply perm_swap.
Qed.

Lemma sort_by_code_perm (l : list TableRow) : Permutation (sort_by_code l) l.
Proof.
  induction l as [|r l IH]; cbn [sort_by_code]; [reflexivity|].
  rewrite insert_by_code_perm. now constructor.
Qed.

(** The rows of the merge: each left row, with each compare-date rate of its
    code, or with a missing rate when the compare snapshot lacks the code. *)
Lemma merge_left_rows (left : list SnapshotRow) (right : list (string * float64))
    (row : TableRow) :
  In row (merge_left left right) <->
  exists r, In r left /\
    ((~ In (snap_Abbreviation r) (map fst right) /\ row = table_row r NaN) \/
     (exists c, In c right /\ fst c = snap_Abbreviation r /\ row = table_row r (snd c))).
Proof.
  unfold merge_left. rewrite in_flat_map. split.
  - intros (r & Hr & Hrow). exists r. split; [exact Hr|].
    destruct (filter _ right) as [|c0 ms] eqn:F.
    + left. destruct Hrow as [<-|[]]. split; [|reflexivity].
      intros Hin. apply in_map_iff in Hin. destruct Hin as (c & Ec & Hc).
      assert (In c (filter (fun c => String.eqb (fst c) (snap_Abbreviation r)) right)) as Hf.
      { apply filter_In. split; [exact Hc|]. now apply String.eqb_eq. }
      rewrite F in Hf. contradiction.
    + right. rewrite <- F in Hrow. apply in_map_iff in Hrow.
      destruct Hrow as (c & <- & Hc). apply filter_In in Hc. destruct Hc as [Hc E].
      apply String.eqb_eq in E. eauto.
  - intros (r & Hr & [[Hno ->]|(c & Hc & Ec & ->)]); exists r; (split; [exact Hr|]).
    + destruct (filter _ right) as [|c0 ms] eqn:F; [now left|].
      exfalso. apply Hno.
      assert (In c0 (filter (fun c => String.eqb (fst c) (snap_Abbreviation r)) right)) as Hf
        by (rewrite F; now left).
      apply filter_In in Hf. destruct Hf as [Hc0 E]. apply String.eqb_eq in E.
      apply in_map_iff. eauto.
    + assert (In c (filter (fun c => String.eqb (fst c) (snap_Abbreviation r)) right)) as Hf.
      { apply filter_In. split; [exact Hc|]. now apply String.eqb_eq. }
      destruct (filter _ right) as [|c0 ms] eqn:F; [contradiction|].
      rewrite <- F. apply in_map_iff. exists c. rewrite F. auto.
Qed.

Lemma table_df_rows (today_rates : list SnapshotRow) (selected_codes : list string)
    (fetched : option (list SnapshotRow)) (row : TableRow) :
  In row (table_df today_rates selected_codes fetched) <->
  In row (merge_left (today_filtered today_rates selected_codes) (rates_7 fetched)).
Proof.
  unfold table_df. split; apply Permutation_in;
    [apply sort_by_code_perm | apply Permutation_sym, sort_by_code_perm].
Qed.

(** ** The chunked fetcher: claims *)

Lemma NoDup_days_from (n : nat) : forall a, NoDup (days_from a n).
Proof.
  induction n as [|n IH]; intros a; cbn [days_from]; constructor; [|apply IH].
  rewrite in_days_from. lia.
Qed.

Lemma concat_flat_map {A B} (f : A -> list (list B)) (l : list A) :
  concat (flat_map f l) = flat_map (fun x => concat (f x)) l.
Proof.
  induction l as [|x l IH]; cbn [flat_map concat]; [reflexivity|].
  now rewrite concat_app, IH.
Qed.

Lemma reply_rows_nil (rep : NetReply) : reply_rows rep = [] -> reply_chunk rep = [].
Proof.
  unfold reply_rows. destruct rep as [|status [chunk|]]; cbn [reply_chunk]; auto.
  destruct (status =? 404); cbn [orb]; auto.
  destruct chunk; cbn; auto. discriminate.
Qed.

Lemma merge_reply_chunks (reply : nat -> NetReply) (l : list nat) :
  merge_chunks (flat_map (fun k => reply_chunk (reply k)) l)
  = sort_values (drop_duplicates (flat_map (fun k => reply_rows (reply k)) l)).
Proof. rewrite merge_chunks_eq. do 2 f_equal. apply concat_flat_map. Qed.

Lemma windows_400_days (cur_id : Z) (start : date) :
  windows cur_id start (start + 399)
  = [ {| req_cur_id := cur_id; startdate := start; enddate := start + 364 |};
      {| req_cur_id := cur_id; startdate := start + 365; enddate := start + 399 |} ].
Proof.
  unfold windows, n_windows, max_days.
  replace (start + 399 - start) with 399 by lia.
  change (Z.to_nat (399 / 365 + 1)) with 2%nat.
  cbn [seq map]. unfold nth_window, max_days.
  f_equal; [f_equal; lia|]. f_equal. f_equal; lia.
Qed.

Lemma while_loop_total (upstream : nat -> Request -> NetReply) (cur_id : Z)
    (start end_ : date) (st : Session) (dfs : list DataFrame) (fuel : nat) :
  start <= end_ -> (n_windows start end_ <= fuel)%nat ->
  exists out m,
    while_loop upstream fuel cur_id end_ start dfs st
      = (out, after_calls st (firstn m (windows cur_id start end_))) /\
    (1 <= m <= n_windows start end_)%nat /\
    out <> OutOfFuel /\
    forall fuel', (n_windows start end_ <= fuel')%nat ->
      while_loop upstream fuel' cur_id end_ start dfs st
      = while_loop upstream fuel cur_id end_ start dfs st.
Proof.
  intros H Hfuel. pose proof (n_windows_bounds start end_ H) as B. cbv zeta in B.
  destruct (first_raise upstream cur_id end_ st start (n_windows start end_))
    as [Hok|(j & e & Hj & Hok & Hbad)].
  - exists (Return (dfs ++ flat_map (fun k => reply_chunk (reply_at upstream cur_id end_ st start k))
                       (seq 0 (n_windows start end_)))), (n_windows start end_).
    rewrite firstn_all2 by (unfold windows; rewrite length_map, length_seq; lia).
    split; [apply while_loop_ok; auto; lia|].
    split; [lia|]. split; [discriminate|].
    intros fuel' Hfuel'. rewrite !(while_loop_ok upstream cur_id end_ (n_windows start end_));
      auto; lia.
  - exists (Raise e), (S j).
    assert (E : firstn (S j) (windows cur_id start end_)
                = map (nth_window cur_id start end_) (seq 0 (S j))).
    { unfold windows. rewrite firstn_map, firstn_seq_min.
      now replace (Nat.min (S j) (n_windows start end_)) with (S j) by lia. }
    rewrite E.
    split; [apply while_loop_raise; auto; try lia; nia|].
    split; [lia|]. split; [discriminate|].
    intros fuel' Hfuel'. rewrite !(while_loop_raise upstream cur_id end_ j _ _ _ _ e);
      auto; try lia; nia.
Qed.

Lemma flat_map_all_nil {A B} (f : A -> list B) (l : list A) :
  (forall x, In x l -> f x = []) -> flat_map f l = [].
Proof.
  induction l as [|x l IH]; intros H; cbn [flat_map]; [reflexivity|].
  rewrite (H x) by now left. apply IH. intros y Hy. apply H. now right.
Qed.

Lemma fetch_reversed_range (upstream : nat -> Request -> NetReply)
    (cur_id : Z) (start end_ : date) (st : Session) :
  end_ < start ->
  chunked_dynamics_fetch upstream cur_id start end_ st = (Return [], st).
Proof.
  intros H. unfold chunked_dynamics_fetch.
  replace (end_ <? start) with true by (symmetry; apply Z.ltb_lt; exact H).
  reflexivity.
Qed.

(** C6. For every pair (start, end) with end < start,
    [chunked_dynamics_fetch] returns an empty series at once: the session is
    unchanged, so no request was issued. *)
Theorem reversed_range_no_request (upstream : nat -> Request -> NetReply)
    (cur_id : Z) (start end_ : date) (st : Session) :
  end_ < start ->
  chunked_dynamics_fetch upstream cur_id start end_ st = (Return [], st).
Proof. apply fetch_reversed_range. Qed.

Lemma reversed_range_no_request_witness :
  jan_1_2023 < jan_3_2023 /\
  chunked_dynamics_fetch january_upstream 431 jan_3_2023 jan_1_2023 fresh
  = (Return [], fresh).
Proof.
  split; [reflexivity|]. apply reversed_range_no_request. reflexivity.
Defined.

(** C10. For every start <= end the window loop terminates.  Each pass
    issues one request and, unless it raises, moves [s] to [chunk_end + 1]
    with [chunk_end >= s], on the 404 branch as on the data branch; so with
    room for [end - start + 1] passes the loop never runs out of passes, its
    result does not depend on the room given, and it makes at most
    [end - start + 1] passes (one request each). *)
Theorem window_loop_terminates (upstream : nat -> Request -> NetReply)
    (cur_id : Z) (start end_ : date) (st : Session) :
  start <= end_ ->
  (forall s dfs st0,
     s <= end_ ->
     let chunk_end := Z.min (s + (max_days - 1)) end_ in
     let w := {| req_cur_id := cur_id; startdate := s; enddate := chunk_end |} in
     s <= chunk_end /\
     snd (loop_body upstream cur_id end_ s dfs st0) = after_calls st0 [w] /\
     ((exists e, fst (loop_body upstream cur_id end_ s dfs st0) = Raise e) \/
      (exists dfs', fst (loop_body upstream cur_id end_ s dfs st0)
                    = Return (chunk_end + 1, dfs')))) /\
  (forall fuel,
     (Z.to_nat (end_ - start + 1) <= fuel)%nat ->
     exists out ws,
       while_loop upstream fuel cur_id end_ start [] st = (out, after_calls st ws) /\
       out <> OutOfFuel /\
       Z.of_nat (length ws) <= end_ - start + 1 /\
       while_loop upstream fuel cur_id end_ start [] st
       = while_loop upstream (Z.to_nat (end_ - start + 1)) cur_id end_ start [] st).
Proof.
  intros H. split.
  - intros s dfs st0 Hs. cbv zeta. split; [unfold max_days; lia|].
    rewrite loop_body_reply. cbv zeta.
    assert (E : nth_window cur_id s end_ 0
                = {| req_cur_id := cur_id; startdate := s;
                     enddate := Z.min (s + (max_days - 1)) end_ |}).
    { unfold nth_window. f_equal; lia. }
    rewrite E. cbn [enddate].
    destruct (reply_exn _) as [e|]; cbn [fst snd]; split; eauto.
  - intros fuel Hfuel.
    pose proof (fuel_enough start end_ H) as F.
    destruct (while_loop_total upstream cur_id start end_ st [] fuel H ltac:(lia))
      as (out & m & E & Hm & Hout & Hindep).
    exists out, (firstn m (windows cur_id start end_)).
    split; [exact E|]. split; [exact Hout|]. split.
    + rewrite length_firstn. unfold windows. rewrite length_map, length_seq.
      pose proof (n_windows_le_days start end_ H). lia.
    + symmetry. apply Hindep. exact F.
Qed.

Lemma window_loop_terminates_witness :
  jan_1_2023 <= feb_4_2024 /\
  exists out ws,
    while_loop january_upstream 400 431 feb_4_2024 jan_1_2023 [] fresh
      = (out, after_calls fresh ws) /\
    out <> OutOfFuel /\
    Z.of_nat (length ws) <= feb_4_2024 - jan_1_2023 + 1.
Proof.
  assert (H : jan_1_2023 <= feb_4_2024) by (vm_compute; discriminate).
  split; [exact H|].
  destruct (window_loop_terminates january_upstream 431 jan_1_2023 feb_4_2024 fresh H)
    as [_ Hloop].
  destruct (Hloop 400%nat ltac:(vm_compute; lia)) as (out & ws & E & Hout & Hlen & _).
  exists out, ws. auto.
Defined.

(** C3. For every start <= end, [chunked_dynamics_fetch] asks for the range
    in consecutive windows of at most 365 days: the windows are non-empty and
    at most 365 days long, and their days, taken in request order, are the
    days of [[start, end]], each once (no gap, no overlap).  The fetcher
    issues one request per window, in order: always a leading part of the
    windows, and all of them when no reply makes it raise.  A 400-day range
    is asked for in exactly two requests, of 365 and 35 days. *)
Theorem windows_partition_range (upstream : nat -> Request -> NetReply)
    (cur_id : Z) (start end_ : date) (st : Session) :
  start <= end_ ->
  let ws := windows cur_id start end_ in
  let run := chunked_dynamics_fetch upstream cur_id start end_ st in
  Forall (fun w => req_cur_id w = cur_id /\
                   startdate w <= enddate w /\
                   enddate w - startdate w + 1 <= 365) ws /\
  flat_map window_days ws = date_range start end_ /\
  NoDup (flat_map window_days ws) /\
  (exists m, (1 <= m <= length ws)%nat /\ snd run = after_calls st (firstn m ws)) /\
  ((forall k, (k < n_windows start end_)%nat ->
      reply_exn (reply_at upstream cur_id end_ st start k) = None) ->
   snd run = after_calls st ws) /\
  (end_ = start + 399 ->
   ws = [ {| req_cur_id := cur_id; startdate := start; enddate := start + 364 |};
          {| req_cur_id := cur_id; startdate := start + 365; enddate := start + 399 |} ]).
Proof.
  intros H ws run. repeat split.
  - apply Forall_forall. intros w Hw. unfold ws, windows in Hw.
    apply in_map_iff in Hw. destruct Hw as (k & <- & Hk). apply in_seq in Hk.
    pose proof (nth_window_shape cur_id start end_ k H ltac:(lia)) as S.
    cbv zeta in S. unfold max_days in S. intuition lia.
  - apply windows_cover, H.
  - unfold ws. rewrite windows_cover by exact H. apply NoDup_days_from.
  - destruct (fetch_total upstream cur_id start end_ st H) as (out & m & E & Hm & _).
    exists m. unfold run. rewrite E. split; [|reflexivity].
    unfold ws, windows. rewrite length_map, length_seq. exact Hm.
  - intros Hok. unfold run. now rewrite (fetch_ok upstream cur_id start end_ st H Hok).
  - intros ->. apply windows_400_days.
Qed.

Lemma windows_partition_range_witness :
  jan_1_2023 <= feb_4_2024 /\
  calls (snd (chunked_dynamics_fetch january_upstream 431 jan_1_2023 feb_4_2024 fresh))
  = [ {| req_cur_id := 431; startdate := jan_1_2023; enddate := jan_1_2023 + 364 |};
      {| req_cur_id := 431; startdate := jan_1_2023 + 365; enddate := feb_4_2024 |} ].
Proof.
  assert (H : jan_1_2023 <= feb_4_2024) by (vm_compute; discriminate).
  split; [exact H|].
  destruct (windows_partition_range january_upstream 431 jan_1_2023 feb_4_2024 fresh H)
    as (_ & _ & _ & _ & Hall & H400).
  rewrite Hall.
  - rewrite (H400 eq_refl). reflexivity.
  - intros [|[|k]] Hk; [reflexivity|reflexivity|].
    exfalso. revert Hk. vm_compute. lia.
Defined.

(** C5. For every start <= end: a 404 reply makes no exception and
    contributes no row, and any other 4xx or 5xx status makes an [HTTPError];
    when no reply makes the body raise, every window is asked for and the
    fetch returns the merge of the rows contributed (nothing for a 404);
    the first reply that makes the body raise ends the fetch, the exception
    goes to the caller and no later window is asked for; and when every
    window is empty the fetch returns the empty series. *)
Theorem not_found_skipped_other_failure_raised (upstream : nat -> Request -> NetReply)
    (cur_id : Z) (start end_ : date) (st : Session) :
  start <= end_ ->
  let reply := reply_at upstream cur_id end_ st start in
  let n := n_windows start end_ in
  let ws := windows cur_id start end_ in
  let run := chunked_dynamics_fetch upstream cur_id start end_ st in
  (forall body, reply_exn (Reply 404 body) = None /\ reply_rows (Reply 404 body) = []) /\
  (forall status body, 400 <= status < 600 -> status <> 404 ->
     reply_exn (Reply status body) = Some (HTTPError status)) /\
  ((forall k, (k < n)%nat -> reply_exn (reply k) = None) ->
   run = (Return (sort_values (drop_duplicates
                    (flat_map (fun k => reply_rows (reply k)) (seq 0 n)))),
          after_calls st ws)) /\
  (forall j e, (j < n)%nat ->
     (forall k, (k < j)%nat -> reply_exn (reply k) = None) ->
     reply_exn (reply j) = Some e ->
     run = (Raise e, after_calls st (firstn (S j) ws))) /\
  ((forall k, (k < n)%nat -> exists body, reply k = Reply 404 body) ->
   run = (Return [], after_calls st ws)) /\
  ((forall k, (k < n)%nat -> reply_exn (reply k) = None /\ reply_rows (reply k) = []) ->
   run = (Return [], after_calls st ws)).
Proof.
  intros H reply n ws run.
  assert (Hempty : (forall k, (k < n)%nat ->
                      reply_exn (reply k) = None /\ reply_rows (reply k) = []) ->
                   run = (Return [], after_calls st ws)).
  { intros Hall. unfold run.
    rewrite (fetch_ok upstream cur_id start end_ st H) by (intros k Hk; apply Hall, Hk).
    rewrite flat_map_all_nil; [reflexivity|].
    intros k Hk. apply in_seq in Hk. apply reply_rows_nil, Hall. lia. }
  split; [intros body; split; [reflexivity|now destruct body]|].
  split.
  { intros status body Hs Hne. cbn [reply_exn].
    replace (status =? 404) with false by (symmetry; apply Z.eqb_neq; exact Hne).
    replace ((400 <=? status) && (status <? 600)) with true; [reflexivity|].
    symmetry. apply andb_true_intro. split; [apply Z.leb_le|apply Z.ltb_lt]; lia. }
  split.
  { intros Hok. unfold run.
    rewrite (fetch_ok upstream cur_id start end_ st H Hok).
    now rewrite merge_reply_chunks. }
  split.
  { intros j e Hj Hok Hbad. apply fetch_raise; assumption. }
  split; [|exact Hempty].
  intros H404. apply Hempty. intros k Hk.
  destruct (H404 k Hk) as [body ->]. split; [reflexivity|now destruct body].
Qed.

Lemma not_found_skipped_other_failure_raised_witness :
  jan_1_2023 <= feb_4_2024 /\
  chunked_dynamics_fetch no_data 431 jan_1_2023 feb_4_2024 fresh
  = (Return [], after_calls fresh (windows 431 jan_1_2023 feb_4_2024)) /\
  chunked_dynamics_fetch usd_down 431 jan_1_2023 feb_4_2024 fresh
  = (Raise (HTTPError 500),
     after_calls fresh (firstn 1 (windows 431 jan_1_2023 feb_4_2024))).
Proof.
  assert (H : jan_1_2023 <= feb_4_2024) by (vm_compute; discriminate).
  split; [exact H|]. split.
  - destruct (not_found_skipped_other_failure_raised no_data 431 jan_1_2023 feb_4_2024 fresh H)
      as (_ & _ & _ & _ & H404 & _).
    apply H404. intros k _. now exists None.
  - destruct (not_found_skipped_other_failure_raised usd_down 431 jan_1_2023 feb_4_2024 fresh H)
      as (_ & _ & _ & Hraise & _).
    apply Hraise.
    + vm_compute. lia.
    + intros k Hk. lia.
    + reflexivity.
Defined.

(** C4. Whenever [chunked_dynamics_fetch] returns a series, it is the
    per-window partial series concatenated in window order, deduplicated by
    date and sorted by date; its dates are strictly increasing, so free of
    duplicates, and the row kept for a date is the first of that date in
    concatenation order. *)
Theorem fetched_series_strictly_increasing (upstream : nat -> Request -> NetReply)
    (cur_id : Z) (start end_ : date) (st st' : Session) (df : DataFrame) :
  chunked_dynamics_fetch upstream cur_id start end_ st = (Return df, st') ->
  let partials :=
    map (fun k => reply_rows (reply_at upstream cur_id end_ st start k))
        (seq 0 (n_windows start end_)) in
  df = sort_values (drop_duplicates (concat partials)) /\
  strictly_increasing df /\
  NoDup (map Date df) /\
  (forall d, first_at df d = first_at (concat partials) d).
Proof.
  intros Hrun partials.
  assert (E : df = merge_chunks
                     (flat_map (fun k => reply_chunk (reply_at upstream cur_id end_ st start k))
                               (seq 0 (n_windows start end_)))).
  { destruct (Z.lt_ge_cases end_ start) as [Hlt|Hge].
    - rewrite (fetch_reversed_range upstream cur_id start end_ st Hlt) in Hrun.
      injection Hrun as <- _. now rewrite (n_windows_empty start end_ Hlt).
    - destruct (first_raise upstream cur_id end_ st start (n_windows start end_))
        as [Hok|(j & e & Hj & Hok & Hbad)].
      + rewrite (fetch_ok upstream cur_id start end_ st Hge Hok) in Hrun. congruence.
      + rewrite (fetch_raise upstream cur_id start end_ st j e Hge Hj Hok Hbad) in Hrun.
        discriminate. }
  assert (C : concat partials
              = concat (flat_map (fun k => reply_chunk (reply_at upstream cur_id end_ st start k))
                                 (seq 0 (n_windows start end_)))).
  { unfold partials. rewrite <- flat_map_concat_map. symmetry. apply concat_flat_map. }
  rewrite C, E.
  destruct (merge_chunks_spec
              (flat_map (fun k => reply_chunk (reply_at upstream cur_id end_ st start k))
                        (seq 0 (n_windows start end_)))) as (HS & ND & Hfirst & _).
  split; [apply merge_chunks_eq|]. auto.
Qed.

Lemma fetched_series_strictly_increasing_witness :
  chunked_dynamics_fetch january_upstream 431 jan_1_2023 feb_4_2024 fresh
  = (Return january_rows, after_calls fresh (windows 431 jan_1_2023 feb_4_2024)) /\
  strictly_increasing january_rows.
Proof.
  assert (H : chunked_dynamics_fetch january_upstream 431 jan_1_2023 feb_4_2024 fresh
              = (Return january_rows, after_calls fresh (windows 431 jan_1_2023 feb_4_2024)))
    by (vm_compute; reflexivity).
  split; [exact H|].
  apply (fetched_series_strictly_increasing january_upstream 431 jan_1_2023 feb_4_2024
           fresh _ january_rows H).
Defined.

(** ** The resolver and the aggregator: claims *)


Lemma fetch_ui (upstream : nat -> Request -> NetReply) (cur_id : Z)
    (start end_ : date) (st : Session) :
  ui (snd (chunked_dynamics_fetch upstream cur_id start end_ st)) = ui st /\
  continues st (snd (chunked_dynamics_fetch upstream cur_id start end_ st)).
Proof.
  destruct (Z.lt_ge_cases end_ start) as [Hlt|Hge].
  - rewrite fetch_reversed_range by exact Hlt. split; [reflexivity|apply continues_refl].
  - destruct (fetch_total upstream cur_id start end_ st Hge) as (out & m & E & _).
    rewrite E. split; [reflexivity|apply continues_after_calls].
Qed.






Lemma fetch_resolved_calls (upstream : nat -> Request -> NetReply) (start end_ : date)
    (series : list Series) (code : string) (r : CurrencyRecord) (st : Session) :
  calls (snd (fetch_resolved upstream start end_ series code r st))
  = calls (snd (chunked_dynamics_fetch upstream (Cur_ID r)
                  (Z.max start (Cur_DateStart r)) (Z.min end_ (Cur_DateEnd r)) st)).
Proof.
  unfold fetch_resolved, bind. cbv zeta.
  destruct (chunked_dynamics_fetch _ _ _ _ st) as [[df|e|] st1]; try reflexivity.
  destruct (empty df); reflexivity.
Qed.

(** C8. For every resolved currency record, the range passed to the chunked
    fetcher is [[max start validFrom, min end validTo]], which is the
    intersection of [[start, end]] with the record's validity window; the
    requests issued for the code are windows of that range, and when no
    reply raises, the days asked for are exactly the days of the
    intersection. *)
Theorem fetch_range_is_intersection (upstream : nat -> Request -> NetReply)
    (currency_map : list CurrencyRecord) (start end_ : date)
    (series : list Series) (code : string) (st : Session) (r : CurrencyRecord) :
  resolved_row currency_map code start end_ = Some r ->
  let cur_start := Z.max start (Cur_DateStart r) in
  let cur_end := Z.min end_ (Cur_DateEnd r) in
  let run := process_code upstream currency_map start end_ series code st in
  (forall d, cur_start <= d <= cur_end <->
             start <= d <= end_ /\ Cur_DateStart r <= d <= Cur_DateEnd r) /\
  run = (df_dyn <- chunked_dynamics_fetch upstream (Cur_ID r) cur_start cur_end ;;
         if empty df_dyn then
           show (st_info (NoDynamics code cur_start cur_end)) ;;; ret series
         else ret (series ++ [(code, df_dyn)])) st /\
  (exists m, calls (snd run)
             = calls st ++ firstn m (windows (Cur_ID r) cur_start cur_end)) /\
  ((forall k, (k < n_windows cur_start cur_end)%nat ->
      reply_exn (reply_at upstream (Cur_ID r) cur_end st cur_start k) = None) ->
   exists ws, calls (snd run) = calls st ++ ws /\
     forall d, In d (flat_map window_days ws) <->
               start <= d <= end_ /\ Cur_DateStart r <= d <= Cur_DateEnd r).
Proof.
  intros Hr cur_start cur_end run.
  assert (Hint : forall d, cur_start <= d <= cur_end <->
                   start <= d <= end_ /\ Cur_DateStart r <= d <= Cur_DateEnd r)
    by (intros d; unfold cur_start, cur_end; lia).
  assert (Erun : run = fetch_resolved upstream start end_ series code r st)
    by (apply process_code_resolved, Hr).
  split; [exact Hint|]. split; [exact Erun|].
  rewrite Erun, fetch_resolved_calls. fold cur_start cur_end.
  destruct (Z.lt_ge_cases cur_end cur_start) as [Hlt|Hge].
  - rewrite fetch_reversed_range by exact Hlt. cbn [snd]. split.
    + exists O. cbn [firstn]. now rewrite app_nil_r.
    + intros _. exists []. split; [now rewrite app_nil_r|].
      intros d. cbn [flat_map In]. rewrite <- Hint. lia.
  - split.
    + destruct (fetch_total upstream (Cur_ID r) cur_start cur_end st Hge)
        as (out & m & E & _).
      exists m. now rewrite E.
    + intros Hok. rewrite (fetch_ok upstream (Cur_ID r) cur_start cur_end st Hge Hok).
      exists (windows (Cur_ID r) cur_start cur_end). split; [reflexivity|].
      intros d. rewrite windows_cover by exact Hge. rewrite in_date_range. apply Hint.
Qed.

Lemma fetch_range_is_intersection_witness :
  resolved_row directory "USD"%string 737972 737991 = Some usd_old /\
  calls (snd (process_code no_data directory 737972 737991 [] "USD"%string fresh))
  = [ {| req_cur_id := 145; startdate := 737972; enddate := 737979 |} ].
Proof.
  assert (H : resolved_row directory "USD"%string 737972 737991 = Some usd_old) by reflexivity.
  split; [exact H|].
  destruct (fetch_range_is_intersection no_data directory 737972 737991 [] "USD"%string fresh
              usd_old H) as (_ & E & _).
  rewrite E. reflexivity.
Defined.

(** C2 (as amended). For every input sequence of codes, if the chunked
    fetch for one code raises (a non-404 HTTP error, or any other exception
    of the fetch), [rates_for_currencies] does not catch it: the exception
    goes to the caller, no table is returned, the codes after the failing
    one are not processed, and nothing is shown on the page for the failure
    (the session is left as the failing fetch left it). *)
Theorem fetch_error_aborts_aggregation (upstream : nat -> Request -> NetReply)
    (currency_map : list CurrencyRecord) (start end_ : date)
    (pre post : list string) (code : string) (r : CurrencyRecord)
    (series1 : list Series) (st st1 st2 : Session) (e : exn) :
  for_codes upstream currency_map start end_ pre [] st = (Return series1, st1) ->
  resolved_row currency_map code start end_ = Some r ->
  chunked_dynamics_fetch upstream (Cur_ID r)
    (Z.max start (Cur_DateStart r)) (Z.min end_ (Cur_DateEnd r)) st1 = (Raise e, st2) ->
  rates_for_currencies upstream (pre ++ code :: post) currency_map start end_ st
  = (Raise e, st2) /\
  ui st2 = ui st1.
Proof.
  intros Hpre Hr Hfetch. split.
  - unfold rates_for_currencies, bind.
    rewrite (for_codes_raise upstream currency_map start end_ pre post code
               [] series1 st st1 st2 e Hpre); [reflexivity|].
    rewrite (process_code_resolved upstream _ _ _ _ _ _ r Hr).
    unfold fetch_resolved, bind. cbv zeta. now rewrite Hfetch.
  - pose proof (fetch_ui upstream (Cur_ID r) (Z.max start (Cur_DateStart r))
                  (Z.min end_ (Cur_DateEnd r)) st1) as [U _].
    now rewrite Hfetch in U.
Qed.

Lemma fetch_error_aborts_aggregation_witness :
  rates_for_currencies usd_down ("EUR"%string :: "USD"%string :: ["RUB"%string]) directory
    jan_1_2023 jan_3_2023 fresh
  = (Raise (HTTPError 500),
     after_calls fresh
       [ {| req_cur_id := 451; startdate := jan_1_2023; enddate := jan_3_2023 |};
         {| req_cur_id := 431; startdate := jan_1_2023; enddate := jan_3_2023 |} ]).
Proof.
  apply (fetch_error_aborts_aggregation usd_down directory jan_1_2023 jan_3_2023
           ["EUR"%string] ["RUB"%string] "USD"%string usd
           [("EUR"%string, january_rows)]
           fresh
           (after_calls fresh
              [ {| req_cur_id := 451; startdate := jan_1_2023; enddate := jan_3_2023 |} ])).
  - reflexivity.
  - reflexivity.
  - reflexivity.
Defined.

(** Counterexample to C2 as stated: USD fails with a 500 and EUR, asked
    alone, yields a column; asked together, the aggregation raises, shows
    nothing and never asks for EUR. *)
Lemma failing_code_aborts_the_others :
  rates_for_currencies usd_down ["USD"%string; "EUR"%string] directory jan_1_2023 jan_3_2023 fresh
  = (Raise (HTTPError 500),
     {| calls := [ {| req_cur_id := 431; startdate := jan_1_2023; enddate := jan_3_2023 |} ];
        ui := [] |}) /\
  rates_for_currencies usd_down ["EUR"%string] directory jan_1_2023 jan_3_2023 fresh
  = (Return {| columns := ["EUR"%string];
               rows := [ (jan_1_2023, [Some rate_2_52]); (jan_3_2023, [Some rate_2_53]) ] |},
     {| calls := [ {| req_cur_id := 451; startdate := jan_1_2023; enddate := jan_3_2023 |} ];
        ui := [] |}) /\
  ~ exists table st',
      rates_for_currencies usd_down ["USD"%string; "EUR"%string] directory jan_1_2023 jan_3_2023 fresh
      = (Return table, st').
Proof.
  split; [reflexivity|]. split; [reflexivity|].
  intros (table & st' & H). discriminate H.
Qed.

Lemma rates_table (upstream : nat -> Request -> NetReply) (codes : list string)
    (currency_map : list CurrencyRecord) (start end_ : date) (st st' : Session)
    (table : WideTable) :
  rates_for_currencies upstream codes currency_map start end_ st = (Return table, st') ->
  exists series,
    for_codes upstream currency_map start end_ codes [] st = (Return series, st') /\
    table = concat_axis1 series.
Proof.
  unfold rates_for_currencies, bind. intros H.
  destruct (for_codes _ _ _ _ codes [] st) as [[series|e|] st1]; try discriminate.
  exists series. destruct series as [|s series]; cbn [empty] in H; unfold ret in H;
    injection H as <- <-; split; reflexivity.
Qed.

(** What reaches a column of the wide table: a value placed in the column of
    a code was served by upstream, for that date, in a reply to a request for
    a directory record of that code, and no arithmetic is applied to it; every
    row of a fetched series is placed. *)
Theorem rates_column_is_official_rate (upstream : nat -> Request -> NetReply)
    (codes : list string) (currency_map : list CurrencyRecord) (start end_ : date)
    (st st' : Session) (table : WideTable) :
  rates_for_currencies upstream codes currency_map start end_ st = (Return table, st') ->
  exists series,
    for_codes upstream currency_map start end_ codes [] st = (Return series, st') /\
    columns table = map fst series /\
    (forall d cells, In (d, cells) (rows table) ->
       length cells = length (columns table)) /\
    (forall j code d cells v,
       nth_error (columns table) j = Some code ->
       In (d, cells) (rows table) ->
       nth_error cells j = Some (Some v) ->
       exists r, In r currency_map /\ Cur_Abbreviation r = code /\
                 served upstream st' (Cur_ID r) {| Date := d; Cur_OfficialRate := v |}) /\
    (forall j s p,
       nth_error series j = Some s -> In p (snd s) ->
       exists cells, In (Date p, cells) (rows table) /\
                     nth_error cells j = Some (Some (Cur_OfficialRate p))).
Proof.
  intros H. destruct (rates_table _ _ _ _ _ _ _ _ H) as (series & Hfor & ->).
  exists series. split; [exact Hfor|]. split; [reflexivity|].
  destruct (for_codes_served upstream currency_map start end_ codes [] series st st' Hfor)
    as [_ HS]; [constructor|].
  split; [|split].
  - intros d cells Hrow. apply concat_axis1_rows in Hrow. destruct Hrow as [_ ->].
    cbn [columns concat_axis1]. now rewrite !length_map.
  - intros j code d cells v Hcol Hrow Hcell.
    apply concat_axis1_rows in Hrow. destruct Hrow as [_ ->].
    cbn [columns concat_axis1] in Hcol.
    rewrite nth_error_map in Hcol, Hcell. revert Hcol Hcell.
    destruct (@nth_error (string * DataFrame) series j) as [s|] eqn:Es;
      intros Hcol Hcell; cbn [option_map] in Hcol, Hcell; [|discriminate]. injection Hcol as <-. injection Hcell as Hcell.
    apply nth_error_In in Es.
    pose proof (proj1 (Forall_forall _ _) HS s Es) as (_ & r & Hr & Hcode & Hserved).
    exists r. repeat split; auto. apply Hserved. now apply at_date_some.
  - intros j s p Es Hp.
    exists (map (fun s0 : Series => at_date (snd s0) (Date p)) series). split.
    + apply concat_axis1_rows. split; [|reflexivity].
      exists s, p. repeat split; auto. eapply nth_error_In; eauto.
    + rewrite nth_error_map, Es. cbn [option_map]. do 2 f_equal.
      pose proof (proj1 (Forall_forall _ _) HS s (nth_error_In _ _ Es)) as (ND & _).
      unfold at_date. fold (first_at (snd s) (Date p)).
      now rewrite (first_at_unique (snd s) p ND Hp).
Qed.

Lemma rates_column_is_official_rate_witness :
  exists series,
    for_codes january_upstream directory jan_1_2023 jan_3_2023 ["RUB"%string] [] fresh
    = (Return series,
       after_calls fresh
         [ {| req_cur_id := 456; startdate := jan_1_2023; enddate := jan_3_2023 |} ]) /\
    map fst series = ["RUB"%string].
Proof.
  destruct (rates_column_is_official_rate january_upstream ["RUB"%string] directory
              jan_1_2023 jan_3_2023 fresh
              (after_calls fresh
                 [ {| req_cur_id := 456; startdate := jan_1_2023; enddate := jan_3_2023 |} ])
              {| columns := ["RUB"%string];
                 rows := [ (jan_1_2023, [Some rate_2_52]); (jan_3_2023, [Some rate_2_53]) ] |}
              eq_refl) as (series & Hfor & Hcols & _).
  exists series. split; [exact Hfor|]. symmetry. exact Hcols.
Defined.

(** C1, a defect of the code.  The docstring of [rates_for_currencies]
    promises columns normalized to 1 unit, that is the officialRate divided
    by the scale of the record, but the scale is never read: RUB is quoted
    per 100 units, upstream serves the officialRate 2.52 for 2023-01-01, and
    the RUB column holds 2.52, which is not 2.52 / 100. *)
Lemma rates_column_not_divided_by_scale :
  Cur_Scale rub = 100 /\
  rates_for_currencies january_upstream ["RUB"%string] directory jan_1_2023 jan_3_2023 fresh
  = (Return {| columns := ["RUB"%string];
               rows := [ (jan_1_2023, [Some rate_2_52]); (jan_3_2023, [Some rate_2_53]) ] |},
     {| calls := [ {| req_cur_id := 456; startdate := jan_1_2023; enddate := jan_3_2023 |} ];
        ui := [] |}) /\
  rate_2_52 <> fdiv rate_2_52 (float_of_Z (Cur_Scale rub)).
Proof.
  split; [reflexivity|]. split; [reflexivity|].
  vm_compute. discriminate.
Qed.

(** ** The snapshot comparison: claims *)



(** The example of the specification: 3.50 against 3.00 gives the absolute
    change 0.50 and a percentage change of about 16.67. *)
Example eur_weekly_change :
  exists row,
    table_df [eur_on 738530 rate_3_50] ["EUR"%string]
             (Some [eur_on jan_3_2023 rate_3_00]) = [row] /\
    Change_abs row = decimal 50 2 /\
    Change_pct row = S754_finite false 4691249611844266 (-48).
Proof. eexists. repeat split. Qed.

(** * Further properties *)

(** ** Runs of the aggregator *)

Lemma subseq_refl {A} (l : list A) : subseq l l.
Proof. induction l; [apply subseq_nil|apply subseq_take; assumption]. Qed.

Lemma subseq_nil_l {A} (l : list A) : subseq [] l.
Proof. induction l; [apply subseq_nil|apply subseq_skip; assumption]. Qed.

Lemma subseq_In {A} (l l' : list A) : subseq l l' -> forall x, In x l -> In x l'.
Proof.
  induction 1 as [|y l l' _ IH|y l l' _ IH]; intros x Hx; cbn [In] in *; auto.
  destruct Hx; auto.
Qed.

Lemma subseq_length {A} (l l' : list A) : subseq l l' -> (length l <= length l')%nat.
Proof. induction 1; cbn [length]; lia. Qed.

Lemma subseq_NoDup {A} (l l' : list A) : subseq l l' -> NoDup l' -> NoDup l.
Proof.
  induction 1 as [|y l l' _ IH|y l l' Hs IH]; intros ND; auto;
    apply NoDup_cons_iff in ND; destruct ND as [Hy ND]; auto.
  constructor; auto. intros Hc. apply Hy. eapply subseq_In; eauto.
Qed.

Lemma reply_exn_kind (rep : NetReply) (e : exn) :
  reply_exn rep = Some e -> reply_exception e.
Proof.
  unfold reply_exception. destruct rep as [|status body]; cbn [reply_exn].
  - intros [= <-]. auto.
  - destruct (status =? 404) eqn:E404; [discriminate|].
    destruct ((400 <=? status) && (status <? 600)) eqn:Er.
    + intros [= <-]. right. right. exists status.
      apply andb_prop in Er. destruct Er as [E1 E2].
      apply Z.leb_le in E1. apply Z.ltb_lt in E2. apply Z.eqb_neq in E404. auto.
    + destruct body; [discriminate|]. intros [= <-]. auto.
Qed.

(** Every run of the fetcher ends with a frame or with an exception caused
    by a reply, after asking for a leading part of the windows of its range
    and showing nothing. *)
Lemma fetch_run (upstream : nat -> Request -> NetReply) (cur_id : Z)
    (start end_ : date) (st : Session) :
  exists out m,
    chunked_dynamics_fetch upstream cur_id start end_ st
    = (out, after_calls st (firstn m (windows cur_id start end_))) /\
    ((exists df, out = Return df) \/ (exists e, out = Raise e /\ reply_exception e)).
Proof.
  destruct (Z.lt_ge_cases end_ start) as [Hlt|Hge].
  - exists (Return []), O. rewrite fetch_reversed_range by exact Hlt.
    cbn [firstn]. rewrite after_calls_nil. split; [reflexivity|]. left. eauto.
  - pose proof (n_windows_bounds start end_ Hge) as B. cbv zeta in B.
    destruct (first_raise upstream cur_id end_ st start (n_windows start end_))
      as [Hok|(j & e & Hj & Hok & Hbad)].
    + rewrite (fetch_ok upstream cur_id start end_ st Hge Hok).
      eexists _, (n_windows start end_).
      rewrite firstn_all2 by (unfold windows; rewrite length_map, length_seq; lia).
      split; [reflexivity|]. left. eauto.
    + rewrite (fetch_raise upstream cur_id start end_ st j e Hge Hj Hok Hbad).
      eexists _, (S j). split; [reflexivity|]. right. exists e. split; [reflexivity|].
      eapply reply_exn_kind; eauto.
Qed.

Lemma windows_shape (cur_id : Z) (start end_ : date) (m : nat) (w : Request) :
  In w (firstn m (windows cur_id start end_)) ->
  req_cur_id w = cur_id /\ start <= startdate w /\ startdate w <= enddate w /\
  enddate w <= end_ /\ enddate w - startdate w + 1 <= max_days.
Proof.
  intros Hw.
  assert (Hw' : In w (firstn m (windows cur_id start end_)
                      ++ skipn m (windows cur_id start end_)))
    by (apply in_or_app; now left).
  rewrite firstn_skipn in Hw'. clear Hw. rename Hw' into Hw. unfold windows in Hw.
  apply in_map_iff in Hw. destruct Hw as (k & <- & Hk). apply in_seq in Hk.
  destruct (Z.lt_ge_cases end_ start) as [Hlt|Hge].
  - rewrite (n_windows_empty start end_ Hlt) in Hk. lia.
  - apply nth_window_shape; [exact Hge|lia].
Qed.

Section Runs.

Variable upstream : nat -> Request -> NetReply.
Variable currency_map : list CurrencyRecord.
Variables start end_ : date.

(** One code: requests for its record only, and either an exception caused
    by a reply, or one message and no frame, or one non-empty frame and no
    message. *)
Lemma process_code_run (series : list Series) (code : string) (st : Session) :
  exists out ws msgs,
    process_code upstream currency_map start end_ series code st
    = (out, {| calls := calls st ++ ws; ui := ui st ++ msgs |}) /\
    Forall (request_within currency_map [code] start end_) ws /\
    ((exists e, out = Raise e /\ reply_exception e /\ msgs = []) \/
     (out = Return series /\ length msgs = 1%nat) \/
     (exists df, df <> [] /\ out = Return (series ++ [(code, df)]) /\ msgs = [])).
Proof.
  destruct (resolved_row currency_map code start end_) as [r|] eqn:E.
  - rewrite (process_code_resolved upstream _ _ _ _ _ _ r E).
    unfold fetch_resolved, bind. cbv zeta.
    set (cur_start := Z.max start (Cur_DateStart r)).
    set (cur_end := Z.min end_ (Cur_DateEnd r)).
    destruct (fetch_run upstream (Cur_ID r) cur_start cur_end st)
      as (out & m & -> & Hout).
    assert (Hws : Forall (request_within currency_map [code] start end_)
                    (firstn m (windows (Cur_ID r) cur_start cur_end))).
    { apply Forall_forall. intros w Hw. apply windows_shape in Hw.
      destruct (resolved_row_in currency_map start end_ code r E) as [Hin Hcode].
      exists r. rewrite Hcode. cbn [In]. unfold cur_start, cur_end in Hw.
      repeat split; auto; lia. }
    destruct Hout as [[df ->]|(e & -> & He)].
    + destruct df as [|p df]; cbn [empty].
      * exists (Return series), (firstn m (windows (Cur_ID r) cur_start cur_end)),
          [st_info (NoDynamics code cur_start cur_end)].
        split; [reflexivity|]. split; [exact Hws|]. right. left. auto.
      * exists (Return (series ++ [(code, p :: df)])),
          (firstn m (windows (Cur_ID r) cur_start cur_end)), [].
        split; [unfold ret, after_calls; now rewrite app_nil_r|].
        split; [exact Hws|]. right. right. exists (p :: df).
        split; [discriminate|]. auto.
    + exists (Raise e), (firstn m (windows (Cur_ID r) cur_start cur_end)), [].
      split; [unfold after_calls; now rewrite app_nil_r|].
      split; [exact Hws|]. left. eauto.
  - rewrite (process_code_unresolved upstream _ _ _ _ _ _ E).
    exists (Return series), [], [unresolved_note currency_map code start end_].
    split; [unfold after_note; now rewrite app_nil_r|].
    split; [constructor|]. right. left. auto.
Qed.

Lemma request_within_codes (codes codes' : list string) (req : Request) :
  (forall c, In c codes -> In c codes') ->
  request_within currency_map codes start end_ req ->
  request_within currency_map codes' start end_ req.
Proof.
  intros Hsub (r & Hr & Hc & H). exists r. split; [exact Hr|]. split; [auto|exact H].
Qed.

(** All codes: the same, summed up. *)
Lemma for_codes_run (codes : list string) :
  forall (series : list Series) (st : Session),
  exists out ws msgs,
    for_codes upstream currency_map start end_ codes series st
    = (out, {| calls := calls st ++ ws; ui := ui st ++ msgs |}) /\
    Forall (request_within currency_map codes start end_) ws /\
    ((exists e, out = Raise e /\ reply_exception e) \/
     (exists added, out = Return (series ++ added) /\
        subseq (map fst added) codes /\
        Forall (fun s : Series => snd s <> []) added /\
        (length added + length msgs = length codes)%nat)).
Proof.
  induction codes as [|code rest IH]; intros series st; cbn [for_codes].
  - exists (Return series), [], []. split.
    + unfold ret. destruct st; cbn. now rewrite !app_nil_r.
    + split; [constructor|]. right. exists []. rewrite app_nil_r.
      repeat split; constructor.
  - unfold bind.
    destruct (process_code_run series code st) as (out1 & ws1 & msgs1 & -> & Hws1 & Hout1).
    assert (Hws1' : Forall (request_within currency_map (code :: rest) start end_) ws1).
    { eapply Forall_impl; [|exact Hws1]. intros req. apply request_within_codes.
      intros c [<-|[]]. now left. }
    destruct Hout1 as [(e & -> & He & ->)|[[-> Hlen]|(df & Hdf & -> & ->)]].
    + exists (Raise e), ws1, []. split; [reflexivity|]. split; [exact Hws1'|]. left. eauto.
    + destruct (IH series {| calls := calls st ++ ws1; ui := ui st ++ msgs1 |})
        as (out & ws & msgs & -> & Hws & Hout).
      exists out, (ws1 ++ ws), (msgs1 ++ msgs). cbn [calls ui].
      split; [now rewrite !app_assoc|]. split.
      * apply Forall_app. split; [exact Hws1'|].
        eapply Forall_impl; [|exact Hws]. intros req. apply request_within_codes.
        intros c Hc. now right.
      * destruct Hout as [(e & -> & He)|(added & -> & Hsub & Hne & Hlen')]; [left; eauto|].
        right. exists added. split; [reflexivity|]. split; [now apply subseq_skip|].
        split; [exact Hne|]. rewrite length_app. cbn [length]. lia.
    + destruct (IH (series ++ [(code, df)]) {| calls := calls st ++ ws1; ui := ui st ++ [] |})
        as (out & ws & msgs & -> & Hws & Hout).
      exists out, (ws1 ++ ws), msgs. cbn [calls ui].
      split; [now rewrite !app_assoc, app_nil_r|]. split.
      * apply Forall_app. split; [exact Hws1'|].
        eapply Forall_impl; [|exact Hws]. intros req. apply request_within_codes.
        intros c Hc. now right.
      * destruct Hout as [(e & -> & He)|(added & -> & Hsub & Hne & Hlen')]; [left; eauto|].
        right. exists ((code, df) :: added). rewrite <- app_assoc. cbn [app].
        split; [reflexivity|]. split; [cbn [map fst]; now apply subseq_take|].
        split; [constructor; auto|]. cbn [length]. lia.
Qed.

End Runs.

(** ** The aggregator as a whole *)

(** X2. Every request that [rates_for_currencies] issues is for the
    identifier of a directory record of one of the codes asked for, spans at
    most 365 days, and lies inside both the period asked for and the validity
    window of that record; the requests recorded before are kept. *)
Theorem rates_requests_within_period (upstream : nat -> Request -> NetReply)
    (codes : list string) (currency_map : list CurrencyRecord) (start end_ : date)
    (st : Session) :
  exists ws,
    calls (snd (rates_for_currencies upstream codes currency_map start end_ st))
    = calls st ++ ws /\
    Forall (request_within currency_map codes start end_) ws.
Proof.
  unfold rates_for_currencies, bind.
  destruct (for_codes_run upstream currency_map start end_ codes [] st)
    as (out & ws & msgs & -> & Hws & Hout).
  exists ws. split; [|exact Hws].
  destruct Hout as [(e & -> & _)|(added & -> & _)]; [reflexivity|].
  cbn [app]. destruct added; reflexivity.
Qed.

Lemma rates_run (upstream : nat -> Request -> NetReply)
    (codes : list string) (currency_map : list CurrencyRecord) (start end_ : date)
    (st st' : Session) (table : WideTable) :
  rates_for_currencies upstream codes currency_map start end_ st = (Return table, st') ->
  exists series msgs,
    table = concat_axis1 series /\
    ui st' = ui st ++ msgs /\
    subseq (map fst series) codes /\
    Forall (fun s : Series => snd s <> []) series /\
    (length series + length msgs = length codes)%nat.
Proof.
  intros H. destruct (rates_table _ _ _ _ _ _ _ _ H) as (series & Hfor & ->).
  destruct (for_codes_run upstream currency_map start end_ codes [] st)
    as (out & ws & msgs & E & _ & [(e & -> & _)|(added & -> & Hsub & Hne & Hlen)]);
    rewrite Hfor in E; [discriminate|].
  injection E as -> ->. exists added, msgs. cbn [ui]. auto.
Qed.

(** X3. The columns of a returned table are codes of the input, in input
    order: the input with the skipped occurrences left out.  Each occurrence
    of a code gives at most one column, and distinct input codes give
    distinct columns. *)
Theorem rates_columns_in_input_order (upstream : nat -> Request -> NetReply)
    (codes : list string) (currency_map : list CurrencyRecord) (start end_ : date)
    (st st' : Session) (table : WideTable) :
  rates_for_currencies upstream codes currency_map start end_ st = (Return table, st') ->
  subseq (columns table) codes /\
  (length (columns table) <= length codes)%nat /\
  (NoDup codes -> NoDup (columns table)).
Proof.
  intros H. destruct (rates_run _ _ _ _ _ _ _ _ H) as (series & msgs & -> & _ & Hsub & _).
  cbn [columns concat_axis1]. split; [exact Hsub|]. split.
  - now apply subseq_length.
  - now apply subseq_NoDup.
Qed.

(** X4. No code is dropped silently: when a table is returned, every
    occurrence of a code in the input gave either a column of the table or
    one message on the page, so columns and new messages add up to the
    number of codes. *)
Theorem rates_every_code_accounted (upstream : nat -> Request -> NetReply)
    (codes : list string) (currency_map : list CurrencyRecord) (start end_ : date)
    (st st' : Session) (table : WideTable) :
  rates_for_currencies upstream codes currency_map start end_ st = (Return table, st') ->
  exists msgs,
    ui st' = ui st ++ msgs /\
    (length (columns table) + length msgs = length codes)%nat.
Proof.
  intros H. destruct (rates_run _ _ _ _ _ _ _ _ H) as (series & msgs & -> & Hui & _ & _ & Hlen).
  exists msgs. split; [exact Hui|]. cbn [columns concat_axis1]. now rewrite length_map.
Qed.

Lemma sample_run :
  rates_for_currencies january_upstream sample_codes directory jan_1_2023 jan_3_2023 fresh
  = (Return sample_table, sample_session).
Proof. reflexivity. Qed.

Lemma rates_columns_in_input_order_witness :
  rates_for_currencies january_upstream sample_codes directory jan_1_2023 jan_3_2023 fresh
  = (Return sample_table, sample_session) /\
  subseq (columns sample_table) sample_codes.
Proof.
  split; [reflexivity|].
  apply (rates_columns_in_input_order january_upstream sample_codes directory
           jan_1_2023 jan_3_2023 fresh sample_session sample_table eq_refl).
Defined.

Lemma rates_every_code_accounted_witness :
  exists msgs,
    ui sample_session = ui fresh ++ msgs /\
    (length (columns sample_table) + length msgs = length sample_codes)%nat.
Proof.
  apply (rates_every_code_accounted january_upstream sample_codes directory
           jan_1_2023 jan_3_2023 fresh sample_session sample_table eq_refl).
Defined.

Lemma union_dates_NoDup (l : list date) : forall seen, NoDup (union_dates seen l).
Proof.
  induction l as [|d l IH]; intros seen; cbn [union_dates]; [constructor|].
  destruct (existsb (Z.eqb d) seen); [apply IH|].
  constructor; [|apply IH]. rewrite union_dates_in. cbn [In]. tauto.
Qed.

Lemma insert_date_sorted (d : date) (l : list date) :
  StronglySorted Z.lt l -> ~ In d l -> StronglySorted Z.lt (insert_date d l).
Proof.
  induction l as [|e l IH]; intros HS Hnot; cbn [insert_date].
  - repeat constructor.
  - apply StronglySorted_inv in HS. destruct HS as [HS HF].
    destruct (d <? e) eqn:E.
    + apply Z.ltb_lt in E. constructor; [constructor; assumption|].
      constructor; [exact E|]. eapply Forall_impl; [|exact HF].
      intros x Hx. cbv beta in Hx. lia.
    + apply Z.ltb_ge in E. constructor.
      * apply IH; [exact HS|]. intros Hc. apply Hnot. now right.
      * apply (Permutation_Forall (Permutation_sym (insert_date_perm d l))).
        constructor; [|exact HF].
        assert (e <> d) by (intros Hc; apply Hnot; now left). lia.
Qed.

Lemma sort_dates_sorted (l : list date) : NoDup l -> StronglySorted Z.lt (sort_dates l).
Proof.
  induction l as [|d l IH]; intros ND; cbn [sort_dates]; [constructor|].
  apply NoDup_cons_iff in ND. destruct ND as [Hnot ND].
  apply insert_date_sorted; [now apply IH|].
  intros Hc. apply Hnot. eapply Permutation_in; [apply sort_dates_perm|exact Hc].
Qed.

Lemma at_date_in (df : DataFrame) (p : RatePoint) :
  In p df -> exists v, at_date df (Date p) = Some v.
Proof.
  intros Hp. unfold at_date.
  destruct (find (fun q => Date q =? Date p) df) as [q|] eqn:F.
  - cbn. eauto.
  - pose proof (find_none _ _ F p Hp) as Hc. cbv beta in Hc.
    rewrite Z.eqb_refl in Hc. discriminate.
Qed.

Lemma rates_run_served (upstream : nat -> Request -> NetReply)
    (codes : list string) (currency_map : list CurrencyRecord) (start end_ : date)
    (st st' : Session) (table : WideTable) :
  rates_for_currencies upstream codes currency_map start end_ st = (Return table, st') ->
  exists series,
    table = concat_axis1 series /\
    Forall (fun s : Series => snd s <> []) series /\
    series_served upstream currency_map st' series.
Proof.
  intros H. destruct (rates_table _ _ _ _ _ _ _ _ H) as (series & Hfor & ->).
  exists series. split; [reflexivity|]. split.
  - destruct (for_codes_run upstream currency_map start end_ codes [] st)
      as (out & ws & msgs & E & _ & [(e & -> & _)|(added & -> & _ & Hne & _)]);
      rewrite Hfor in E; [discriminate|].
    injection E as -> _. exact Hne.
  - destruct (for_codes_served upstream currency_map start end_ codes [] series st st' Hfor)
      as [_ HS]; [constructor|exact HS].
Qed.

(** X5. A returned table is well formed: its rows are in strictly
    increasing date order (one row per date); it has rows exactly when it
    has columns; every row and every column holds a cell taken from a
    fetched row; and when upstream serves no null rate, such a cell holds a
    number, so that no row and no column is entirely empty. *)
Theorem rates_table_well_formed (upstream : nat -> Request -> NetReply)
    (codes : list string) (currency_map : list CurrencyRecord) (start end_ : date)
    (st st' : Session) (table : WideTable) :
  rates_for_currencies upstream codes currency_map start end_ st = (Return table, st') ->
  StronglySorted Z.lt (map fst (rows table)) /\
  (table_empty table = true <-> columns table = []) /\
  (forall d cells, In (d, cells) (rows table) ->
     exists j v, nth_error cells j = Some (Some v)) /\
  (forall j code, nth_error (columns table) j = Some code ->
     exists d cells v, In (d, cells) (rows table) /\ nth_error cells j = Some (Some v)) /\
  (no_null_rates upstream ->
   (forall d cells, In (d, cells) (rows table) ->
      exists j cell, nth_error cells j = Some cell /\ filled cell = true) /\
   (forall j code, nth_error (columns table) j = Some code ->
      exists d cells cell, In (d, cells) (rows table) /\
                           nth_error cells j = Some cell /\ filled cell = true)).
Proof.
  intros H. destruct (rates_run_served _ _ _ _ _ _ _ _ H) as (series & -> & Hne & HS).
  assert (Hcol : forall j s, nth_error series j = Some s ->
            exists d cells v, In (d, cells) (rows (concat_axis1 series)) /\
                              nth_error cells j = Some (Some v) /\
                              In {| Date := d; Cur_OfficialRate := v |} (snd s)).
  { intros j s Es. pose proof (proj1 (Forall_forall _ _) Hne s (nth_error_In _ _ Es)) as Hs.
    destruct (snd s) as [|p df] eqn:Edf; [congruence|].
    assert (Hp : In p (snd s)) by (rewrite Edf; now left).
    destruct (at_date_in (snd s) p Hp) as [v Hv].
    exists (Date p), (map (fun s0 : Series => at_date (snd s0) (Date p)) series), v.
    rewrite <- Edf. split; [|split].
    - apply concat_axis1_rows. split; [|reflexivity].
      exists s, p. repeat split; auto. eapply nth_error_In; eauto.
    - pose proof (map_nth_error (fun s0 : Series => at_date (snd s0) (Date p)) _ _ Es) as Hm.
      cbv beta in Hm. rewrite Hv in Hm. exact Hm.
    - now apply at_date_some. }
  assert (Hrow : forall d cells, In (d, cells) (rows (concat_axis1 series)) ->
            exists j s v, nth_error series j = Some s /\
                          nth_error cells j = Some (Some v) /\
                          In {| Date := d; Cur_OfficialRate := v |} (snd s)).
  { intros d cells Hin. apply concat_axis1_rows in Hin.
    destruct Hin as [(s & p & Hs & Hp & <-) ->].
    destruct (In_nth_error _ _ Hs) as [j Ej].
    destruct (at_date_in (snd s) p Hp) as [v Hv].
    exists j, s, v. split; [exact Ej|]. split.
    - pose proof (map_nth_error (fun s0 : Series => at_date (snd s0) (Date p)) _ _ Ej) as Hm.
      cbv beta in Hm. rewrite Hv in Hm. exact Hm.
    - now apply at_date_some. }
  assert (Hseries : forall j code, nth_error (columns (concat_axis1 series)) j = Some code ->
            exists s, nth_error series j = Some s).
  { intros j code Hj. cbn [columns concat_axis1] in Hj. rewrite nth_error_map in Hj.
    revert Hj. destruct (@nth_error (string * DataFrame) series j) as [s|] eqn:Es;
      intros Hj; cbn [option_map] in Hj; [eauto|discriminate]. }
  assert (Hnum : no_null_rates upstream ->
            forall j s d v, nth_error series j = Some s ->
              In {| Date := d; Cur_OfficialRate := v |} (snd s) -> filled (Some v) = true).
  { intros Hnn j s d v Es Hp.
    pose proof (proj1 (Forall_forall _ _) HS s (nth_error_In _ _ Es))
      as (_ & r & _ & _ & Hserved).
    destruct (Hserved _ Hp) as (k & req & status & body & _ & _ & Hrep & _ & _ & Hin).
    pose proof (Hnn k req status body _ Hrep Hin) as Hna. cbn [Cur_OfficialRate] in Hna.
    cbn [filled]. unfold notna. now rewrite Hna. }
  split; [|split; [|split; [|split; [|intros Hnn; split]]]].
  - unfold concat_axis1; cbn [rows]. rewrite map_map. cbn [fst]. rewrite map_id.
    apply sort_dates_sorted, union_dates_NoDup.
  - cbn [columns concat_axis1]. unfold table_empty. split.
    + intros Hempty. destruct series as [|s series]; [reflexivity|].
      destruct (Hcol O s eq_refl) as (d & cells & v & Hin & _).
      destruct (rows (concat_axis1 (s :: series))); [contradiction|discriminate].
    + intros Hnil. destruct series; [reflexivity|discriminate].
  - intros d cells Hin. destruct (Hrow d cells Hin) as (j & s & v & _ & Hcell & _). eauto.
  - intros j code Hj. destruct (Hseries j code Hj) as [s Es].
    destruct (Hcol j s Es) as (d & cells & v & Hin & Hcell & _). eauto.
  - intros d cells Hin. destruct (Hrow d cells Hin) as (j & s & v & Es & Hcell & Hp).
    exists j, (Some v). split; [exact Hcell|]. eapply Hnum; eauto.
  - intros j code Hj. destruct (Hseries j code Hj) as [s Es].
    destruct (Hcol j s Es) as (d & cells & v & Hin & Hcell & Hp).
    exists d, cells, (Some v). split; [exact Hin|]. split; [exact Hcell|]. eapply Hnum; eauto.
Qed.

Lemma january_no_null_rates : no_null_rates january_upstream.
Proof.
  intros k req status body p Hrep Hin. unfold january_upstream in Hrep.
  destruct ((startdate req <=? jan_1_2023) && (jan_1_2023 <=? enddate req));
    [|discriminate].
  injection Hrep as _ <-. destruct Hin as [<-|[<-|[]]]; reflexivity.
Defined.

Lemma rates_table_well_formed_witness :
  StronglySorted Z.lt (map fst (rows sample_table)) /\
  (table_empty sample_table = true <-> columns sample_table = []) /\
  (forall d cells, In (d, cells) (rows sample_table) ->
     exists j cell, nth_error cells j = Some cell /\ filled cell = true).
Proof.
  destruct (rates_table_well_formed january_upstream sample_codes directory
              jan_1_2023 jan_3_2023 fresh sample_session sample_table eq_refl)
    as (HS & He & _ & _ & Hnum).
  destruct (Hnum january_no_null_rates) as [Hrows _].
  split; [exact HS|]. split; [exact He|exact Hrows].
Defined.


Section NoFrames.

Variable upstream : nat -> Request -> NetReply.
Variable currency_map : list CurrencyRecord.
Variables start end_ : date.

(** The requests allowed in the runs considered. *)
Variable allowed : list Request -> Prop.
Hypothesis allowed_nil : allowed [].
Hypothesis allowed_app : forall ws ws', allowed ws -> allowed ws' -> allowed (ws ++ ws').

(** Every fetch for a resolved record returns the empty frame. *)
Hypothesis fetch_empty :
  forall code r st,
    resolved_row currency_map code start end_ = Some r ->
    exists ws,
      chunked_dynamics_fetch upstream (Cur_ID r)
        (Z.max start (Cur_DateStart r)) (Z.min end_ (Cur_DateEnd r)) st
      = (Return [], after_calls st ws) /\ allowed ws.




End NoFrames.





(** ** The comparison table as a whole *)

Lemma ltb_leb (s1 s2 : string) : String.ltb s1 s2 = true -> String.leb s1 s2 = true.
Proof. unfold String.ltb, String.leb. now destruct (String.compare s1 s2). Qed.

Lemma not_ltb_leb (s1 s2 : string) : String.ltb s1 s2 = false -> String.leb s2 s1 = true.
Proof.
  unfold String.ltb, String.leb. rewrite (String.compare_antisym s2 s1).
  now destruct (String.compare s1 s2).
Qed.

Lemma insert_by_code_sorted (r : TableRow) (l : list TableRow) :
  Sorted code_le l -> Sorted code_le (insert_by_code r l).
Proof.
  induction l as [|q l IH]; intros HS; cbn [insert_by_code].
  - repeat constructor.
  - apply Sorted_inv in HS. destruct HS as [HS Hd].
    destruct (String.ltb (Code q) (Code r)) eqn:E.
    + constructor; [now apply IH|].
      destruct l as [|q' l]; cbn [insert_by_code].
      * constructor. now apply ltb_leb.
      * destruct (String.ltb (Code q') (Code r)).
        -- constructor. now inversion Hd.
        -- constructor. now apply ltb_leb.
    + constructor; [constructor; assumption|]. constructor. now apply not_ltb_leb.
Qed.

Lemma sort_by_code_sorted (l : list TableRow) : Sorted code_le (sort_by_code l).
Proof.
  induction l as [|r l IH]; cbn [sort_by_code]; [constructor|].
  now apply insert_by_code_sorted.
Qed.

Lemma filter_key_unique {A} (k : string) (l : list (string * A)) :
  NoDup (map fst l) ->
  (length (filter (fun c => String.eqb (fst c) k) l) <= 1)%nat.
Proof.
  induction l as [|c l IH]; intros ND; cbn [filter length]; [lia|].
  cbn [map] in ND. apply NoDup_cons_iff in ND. destruct ND as [Hnot ND].
  destruct (String.eqb (fst c) k) eqn:E; [|now apply IH].
  apply String.eqb_eq in E. cbn [length].
  destruct (filter (fun c0 => String.eqb (fst c0) k) l) as [|c' rest] eqn:F; [cbn; lia|].
  exfalso. apply Hnot.
  assert (In c' (filter (fun c0 : string * A => String.eqb (fst c0) k) l)) as Hc'
    by (rewrite F; now left).
  apply filter_In in Hc'. destruct Hc' as [Hin Ek]. apply String.eqb_eq in Ek.
  rewrite E, <- Ek. now apply in_map.
Qed.

Lemma merge_left_length (left : list SnapshotRow) (right : list (string * float64)) :
  NoDup (map fst right) -> length (merge_left left right) = length left.
Proof.
  intros ND. unfold merge_left.
  induction left as [|r left IH]; cbn [flat_map length]; [reflexivity|].
  rewrite length_app, IH. f_equal.
  pose proof (filter_key_unique (snap_Abbreviation r) right ND) as Hle.
  destruct (filter _ right) as [|c [|c' rest]]; cbn [length map] in *; lia.
Qed.

(** X8. The comparison table is a left join on today's snapshot: every row
    carries the code, name, scale, date and rate of a row of today's
    snapshot whose code is selected; every selected row of today's snapshot
    has a row in the table; and when the compare-date snapshot lists each
    code at most once, the table has exactly one row per selected row of
    today's snapshot. *)
Theorem comparison_rows_from_today (today_rates : list SnapshotRow)
    (selected_codes : list string) (fetched : option (list SnapshotRow)) :
  let table := table_df today_rates selected_codes fetched in
  (forall row, In row table ->
     In (Code row) selected_codes /\
     exists r, In r today_rates /\
       Code row = snap_Abbreviation r /\ Name row = snap_Name r /\
       Scale row = snap_Scale r /\ RowDate row = snap_Date r /\
       Rate_BYN_per_scale row = snap_OfficialRate r) /\
  (forall r, In r today_rates -> In (snap_Abbreviation r) selected_codes ->
     exists row, In row table /\
       Code row = snap_Abbreviation r /\
       Rate_BYN_per_scale row = snap_OfficialRate r) /\
  (NoDup (map fst (rates_7 fetched)) ->
   length table = length (today_filtered today_rates selected_codes)).
Proof.
  intros table. split; [|split].
  - intros row Hrow. apply table_df_rows, merge_left_rows in Hrow.
    destruct Hrow as (r & Hr & Hcase). unfold today_filtered in Hr.
    apply filter_In in Hr. destruct Hr as [Hr Hsel].
    apply existsb_exists in Hsel. destruct Hsel as (c & Hc & Ec).
    apply String.eqb_eq in Ec. subst c.
    assert (exists x, row = table_row r x) as [x ->]
      by (destruct Hcase as [[_ ->]|(c & _ & _ & ->)]; eauto).
    split; [exact Hc|]. exists r. repeat split; auto.
  - intros r Hr Hsel.
    assert (Hf : In r (today_filtered today_rates selected_codes)).
    { apply filter_In. split; [exact Hr|]. apply existsb_exists.
      exists (snap_Abbreviation r). split; [exact Hsel|apply String.eqb_refl]. }
    destruct (in_dec string_dec (snap_Abbreviation r) (map fst (rates_7 fetched)))
      as [Hin|Hno].
    + apply in_map_iff in Hin. destruct Hin as (c & Ec & Hc).
      exists (table_row r (snd c)). split; [|split; reflexivity].
      apply table_df_rows, merge_left_rows. exists r. split; [exact Hf|]. right. eauto.
    + exists (table_row r NaN). split; [|split; reflexivity].
      apply table_df_rows, merge_left_rows. exists r. auto.
  - intros ND. unfold table, table_df.
    rewrite (Permutation_length (sort_by_code_perm _)). now apply merge_left_length.
Qed.

(** X9. The rows of the comparison table are in non-decreasing order of
    their codes, and are the rows of the join, none lost and none added. *)
Theorem comparison_sorted_by_code (today_rates : list SnapshotRow)
    (selected_codes : list string) (fetched : option (list SnapshotRow)) :
  Sorted code_le (table_df today_rates selected_codes fetched) /\
  Permutation (table_df today_rates selected_codes fetched)
              (merge_left (today_filtered today_rates selected_codes) (rates_7 fetched)).
Proof. split; [apply sort_by_code_sorted|apply sort_by_code_perm]. Qed.

Lemma fsub_same (s : bool) (m : positive) (e : Z) :
  fsub (S754_finite s m e) (S754_finite s m e) = S754_zero false.
Proof.
  unfold fsub, SFsub. cbv zeta. rewrite Z.sub_diag. reflexivity.
Qed.

(** X10. A rate that did not move shows no change: when the compare-date
    rate of a row equals today's rate, a finite non-zero number, the
    absolute change is exactly +0.0 and the percentage change is a zero,
    displayed as a percentage. *)
Theorem comparison_unchanged_rate (today_rates : list SnapshotRow)
    (selected_codes : list string) (fetched : option (list SnapshotRow))
    (row : TableRow) (s : bool) (m : positive) (e : Z) :
  In row (table_df today_rates selected_codes fetched) ->
  Rate_BYN_per_scale row = S754_finite s m e ->
  Rate_7d_ago row = Rate_BYN_per_scale row ->
  Change_abs row = S754_zero false /\
  Change_pct row = S754_zero s /\
  display_pct (Change_pct row) = Percent (S754_zero s).
Proof.
  intros Hrow Hrate Hsame. apply table_df_rows, merge_left_rows in Hrow.
  destruct Hrow as (r & _ & Hcase).
  assert (exists x, row = table_row r x) as [x ->]
    by (destruct Hcase as [[_ ->]|(c & _ & _ & ->)]; eauto).
  cbn [table_row Rate_BYN_per_scale Rate_7d_ago Change_abs Change_pct] in *.
  subst x. rewrite Hrate, fsub_same.
  assert (E : fmul (fdiv (S754_zero false) (S754_finite s m e)) (float_of_Z 100)
              = S754_zero s) by (destruct s; reflexivity).
  rewrite E. now destruct s.
Qed.

Lemma comparison_unchanged_rate_witness :
  In (table_row (eur_on 738530 rate_3_50) rate_3_50)
     (table_df [eur_on 738530 rate_3_50] ["EUR"%string]
               (Some [eur_on jan_3_2023 rate_3_50])) /\
  Change_abs (table_row (eur_on 738530 rate_3_50) rate_3_50) = S754_zero false /\
  Change_pct (table_row (eur_on 738530 rate_3_50) rate_3_50) = S754_zero false.
Proof.
  assert (H : In (table_row (eur_on 738530 rate_3_50) rate_3_50)
                 (table_df [eur_on 738530 rate_3_50] ["EUR"%string]
                           (Some [eur_on jan_3_2023 rate_3_50])))
    by (left; reflexivity).
  split; [exact H|].
  destruct (comparison_unchanged_rate [eur_on 738530 rate_3_50] ["EUR"%string]
              (Some [eur_on jan_3_2023 rate_3_50]) _ false _ _ H eq_refl eq_refl)
    as (Habs & Hpct & _).
  split; assumption.
Defined.

(** ** The chart section *)


Lemma forallb_filter_same {A} (f : A -> bool) (l : list A) :
  forallb f (filter f l) = true.
Proof.
  apply forallb_forall. intros x Hx. apply filter_In in Hx. tauto.
Qed.

Lemma forallb_false {A} (f : A -> bool) (l : list A) :
  forallb f l = false <-> exists x, In x l /\ f x = false.
Proof.
  induction l as [|a l IH]; cbn [forallb In].
  - split; [discriminate|]. intros (x & [] & _).
  - rewrite andb_false_iff, IH. split.
    + intros [Ha|(x & Hx & Hf)]; eauto.
    + intros (x & [<-|Hx] & Hf); eauto.
Qed.

Lemma existsb_eqb_string (c : string) (l : list string) :
  existsb (String.eqb c) l = true <-> In c l.
Proof.
  rewrite existsb_exists. split.
  - intros (x & Hx & E). apply String.eqb_eq in E. now subst.
  - intros H. exists c. split; [exact H|apply String.eqb_refl].
Qed.

Lemma melt_length (df : WideTable) (value_vars : list string) (long : list LongRow) :
  melt df value_vars = Some long ->
  length long = (length value_vars * length (rows df))%nat.
Proof.
  unfold melt. destruct (forallb _ value_vars); [|discriminate].
  intros [= <-]. induction value_vars as [|v vs IH]; cbn [flat_map length]; [reflexivity|].
  rewrite length_app, length_map, IH. cbn [Nat.mul]. reflexivity.
Qed.

(** X12. The first plot never fails on a missing column: its long frame is
    made for the selected codes that are columns of the table, and holds one
    row per such code and date. *)
Theorem first_plot_never_key_error (df_rates_ts : WideTable) (selected_codes : list string) :
  exists long,
    df_melt df_rates_ts selected_codes = Some long /\
    length long
    = (length (filter (fun c => existsb (String.eqb c) (columns df_rates_ts)) selected_codes)
       * length (rows df_rates_ts))%nat /\
    forall row, In row long ->
      In (Currency row) selected_codes /\ In (Currency row) (columns df_rates_ts).
Proof.
  unfold df_melt.
  destruct (melt df_rates_ts
              (filter (fun c => existsb (String.eqb c) (columns df_rates_ts)) selected_codes))
    as [long|] eqn:E.
  - exists long. split; [reflexivity|]. split; [now apply melt_length|].
    intros row Hrow. unfold melt in E. rewrite forallb_filter_same in E.
    injection E as <-. apply in_flat_map in Hrow. destruct Hrow as (v & Hv & Hrow).
    apply in_map_iff in Hrow. destruct Hrow as (r & <- & _). cbn [Currency].
    apply filter_In in Hv. destruct Hv as [Hsel Hcol].
    split; [exact Hsel|]. now apply existsb_eqb_string.
  - unfold melt in E. rewrite forallb_filter_same in E. discriminate.
Qed.

(** X13. The plot with exclusions, reached only when the table is not
    empty, raises [KeyError] exactly when some selected code that is not
    excluded has no column in the table, that is, when a code was skipped by
    the aggregator, another gave data, and the skipped one is still shown. *)
Theorem replot_key_error_iff (df_rates_ts : WideTable) (selected_codes excluded : list string) :
  replot df_rates_ts selected_codes excluded = KeyError <->
  table_empty df_rates_ts = false /\
  exists c, In c selected_codes /\ ~ In c excluded /\ ~ In c (columns df_rates_ts).
Proof.
  unfold replot.
  destruct (table_empty df_rates_ts); [split; [discriminate|intros [H _]; discriminate]|].
  cbv zeta.
  set (shown := filter (fun c => negb (existsb (String.eqb c) excluded)) selected_codes).
  assert (Hshown : forall c, In c shown <-> In c selected_codes /\ ~ In c excluded).
  { intros c. unfold shown. rewrite filter_In, negb_true_iff.
    rewrite <- (existsb_eqb_string c excluded).
    destruct (existsb (String.eqb c) excluded); intuition congruence. }
  split.
  - destruct shown as [|c0 rest] eqn:Es; cbn [empty]; [discriminate|].
    unfold melt. destruct (forallb _ (c0 :: rest)) eqn:F; [discriminate|]. intros _.
    split; [reflexivity|].
    apply forallb_false in F. destruct F as (c & Hc & Hcol).
    exists c. apply Hshown in Hc. destruct Hc as [Hsel Hex].
    repeat split; auto. rewrite <- existsb_eqb_string. congruence.
  - intros (_ & c & Hsel & Hex & Hcol).
    assert (Hc : In c shown) by (apply Hshown; auto).
    destruct shown as [|c0 rest] eqn:Es; [contradiction|]. cbn [empty].
    unfold melt. replace (forallb _ (c0 :: rest)) with false; [reflexivity|].
    symmetry. apply forallb_false. exists c. split; [exact Hc|].
    rewrite <- existsb_eqb_string in Hcol. now destruct (existsb (String.eqb c) _).
Qed.

(** The discontinued LTL is skipped with a note, USD gives the only column,
    and the plot with no exclusion raises; when USD is not asked for, the
    table is empty and nothing is plotted. *)
Example replot_after_skipped_code :
  exists df st',
    rates_for_currencies january_upstream selected_with_old (ltl :: directory)
      jan_1_2023 jan_3_2023 fresh = (Return df, st') /\
    columns df = ["USD"%string] /\
    ui st' = [st_info (NoCurId "LTL"%string jan_1_2023 jan_3_2023)] /\
    replot df selected_with_old [] = KeyError /\
    replot df selected_with_old ["LTL"%string] <> KeyError /\
    replot empty_table ["LTL"%string] [] = no_history_only.
Proof.
  eexists. eexists. split; [reflexivity|]. repeat split. discriminate.
Qed.

(** ** The metals section *)

Lemma dict_get_set (d : Metals.dict) (k k' : string) (v : Z) :
  Metals.dict_get (Metals.dict_set d k v) k'
  = if String.eqb k k' then Some v else Metals.dict_get d k'.
Proof.
  unfold Metals.dict_get.
  induction d as [|[k0 v0] d IH]; cbn [Metals.dict_set find fst].
  - destruct (String.eqb k k'); reflexivity.
  - destruct (String.eqb k0 k) eqn:E0; cbn [find fst].
    + apply String.eqb_eq in E0. subst k0.
      destruct (String.eqb k k'); reflexivity.
    + destruct (String.eqb k0 k') eqn:E1.
      * apply String.eqb_eq in E1. subst k0. rewrite String.eqb_sym, E0. reflexivity.
      * exact IH.
Qed.

Lemma keys_set_in (d : Metals.dict) (k k' : string) (v : Z) :
  In k' (Metals.keys (Metals.dict_set d k v)) <-> k' = k \/ In k' (Metals.keys d).
Proof.
  unfold Metals.keys.
  induction d as [|[k0 v0] d IH]; cbn [Metals.dict_set map fst In].
  - intuition.
  - destruct (String.eqb k0 k) eqn:E0; cbn [map fst In].
    + apply String.eqb_eq in E0. subst k0. intuition.
    + rewrite IH. intuition.
Qed.

Lemma keys_set_NoDup (d : Metals.dict) (k : string) (v : Z) :
  NoDup (Metals.keys d) -> NoDup (Metals.keys (Metals.dict_set d k v)).
Proof.
  unfold Metals.keys.
  induction d as [|[k0 v0] d IH]; intros ND; cbn [Metals.dict_set map fst].
  - repeat constructor. intros [].
  - cbn [map fst] in ND. apply NoDup_cons_iff in ND. destruct ND as [Hnot ND].
    destruct (String.eqb k0 k) eqn:E0; cbn [map fst].
    + now constructor.
    + constructor; [|now apply IH].
      intros Hc. apply (keys_set_in d k k0 v) in Hc. destruct Hc as [->|Hc]; [|now apply Hnot].
      rewrite String.eqb_refl in E0. discriminate.
Qed.

(** X14. The dictionary of metals keeps one entry per name: the names
    offered are those of the list, each once, and the identifier found for a
    name is that of the last metal of the list with this name. *)
Theorem metals_dict_last_wins (metals : list Metals.Metal) :
  NoDup (Metals.keys (Metals.metals_dict metals)) /\
  (forall name, In name (Metals.keys (Metals.metals_dict metals))
                <-> In name (map Metals.Name metals)) /\
  (forall name,
     Metals.dict_get (Metals.metals_dict metals) name
     = option_map Metals.Id
         (find (fun m => String.eqb (Metals.Name m) name) (rev metals))).
Proof.
  unfold Metals.metals_dict.
  induction metals as [|m metals IH] using rev_ind.
  - cbn. repeat split; try constructor; tauto.
  - destruct IH as (ND & Hkeys & Hget).
    rewrite fold_left_app. cbn [fold_left]. split; [|split].
    + now apply keys_set_NoDup.
    + intros name. rewrite keys_set_in, Hkeys, map_app, in_app_iff. cbn [map In].
      intuition.
    + intros name. rewrite dict_get_set, rev_app_distr. cbn [rev app find].
      destruct (String.eqb (Metals.Name m) name); [reflexivity|apply Hget].
Qed.





Lemma checked_failure {A} (rep : Metals.Reply A) (pg : Metals.Page) :
  Metals.checked rep pg =
  match metals_failure rep, rep with
  | Some e, _ => (Metals.Failed (Metals.Requests e), pg)
  | None, Metals.HttpReply _ (Some data) => (Metals.Done data, pg)
  | None, _ => (Metals.Failed (Metals.Requests RequestException), pg)
  end.
Proof.
  destruct rep as [|status [data|]]; cbn [Metals.checked metals_failure]; try reflexivity;
    destruct ((400 <=? status) && (status <? 600)); reflexivity.
Qed.

Lemma metals_failure_none {A} (rep : Metals.Reply A) :
  metals_failure rep = None ->
  exists status data, rep = Metals.HttpReply status (Some data) /\ ~ 400 <= status < 600.
Proof.
  destruct rep as [|status [data|]]; cbn [metals_failure]; try discriminate;
    destruct ((400 <=? status) && (status <? 600)) eqn:E; try discriminate.
  intros _. exists status, data. split; [reflexivity|].
  intros [H1 H2]. apply andb_false_iff in E.
  destruct E as [E|E]; [apply Z.leb_gt in E|apply Z.ltb_ge in E]; lia.
Qed.

(** Every run of the section: the header and the request for the list of
    metals, then one of the ways to end. *)
Lemma metals_section_cases (api : Metals.Api) (selectbox : list string -> option string)
    (start_date end_date : date) (pg : Metals.Page) :
  exists out more evs,
    Metals.metals_section api selectbox start_date end_date pg
    = (out, {| Metals.calls := Metals.calls pg ++ Metals.GetMetals :: more;
               Metals.shown := Metals.shown pg ++ Metals.st_header :: evs |}) /\
    ((more = [] /\ evs = [] /\ exists ex, out = Metals.Failed ex) \/
     (more = [] /\ evs = [Metals.st_error] /\ end_date < start_date /\ out = Metals.Done tt) \/
     (exists metal_id,
        more = [Metals.GetPrices metal_id start_date end_date] /\
        start_date <= end_date /\
        let rep := Metals.prices_api api (S (length (Metals.calls pg)))
                     metal_id start_date end_date in
        ((exists e, metals_failure rep = Some e /\
                    out = Metals.Failed (Metals.Requests e) /\ evs = [Metals.st_info]) \/
         (exists status, rep = Metals.HttpReply status (Some []) /\ ~ 400 <= status < 600 /\
                    out = Metals.Done tt /\ evs = [Metals.st_info; Metals.st_warning]) \/
         (exists status data, rep = Metals.HttpReply status (Some data) /\
                    ~ 400 <= status < 600 /\ data <> [] /\
                    forallb (fun p => Metals.in_bounds (Metals.Date p)) data = false /\
                    out = Metals.Failed Metals.OutOfBoundsDatetime /\
                    evs = [Metals.st_info]) \/
         (exists status data, rep = Metals.HttpReply status (Some data) /\
                    ~ 400 <= status < 600 /\ data <> [] /\
                    forallb (fun p => Metals.in_bounds (Metals.Date p)) data = true /\
                    out = Metals.Done tt /\
                    evs = metals_display (Metals.sort_values data))))).
Proof.
  unfold Metals.metals_section, Metals.bind at 1 2, Metals.show at 1, Metals.fetch_metals.
  cbn [Metals.calls Metals.shown]. rewrite checked_failure.
  destruct (metals_failure (Metals.metals_api api (length (Metals.calls pg)))) as [e|] eqn:F.
  { eexists _, [], []. split; [reflexivity|]. left. eauto. }
  destruct (metals_failure_none _ F) as (status & metals & -> & _).
  destruct (selectbox _) as [selected|].
  2: { eexists _, [], []. split; [reflexivity|]. left. eauto. }
  destruct (Metals.dict_get _ selected) as [metal_id|].
  2: { eexists _, [], []. split; [reflexivity|]. left. eauto. }
  destruct (start_date >? end_date) eqn:Edates.
  { eexists _, [], [Metals.st_error]. split.
    - unfold Metals.show. cbn [Metals.calls Metals.shown].
      now rewrite <- app_assoc.
    - right. left. repeat split. apply Z.gtb_lt in Edates. lia. }
  assert (Hle : start_date <= end_date).
  { destruct (Z.gtb_spec start_date end_date); [discriminate|lia]. }
  unfold Metals.bind at 1, Metals.show at 1. cbn [Metals.calls Metals.shown].
  unfold Metals.bind at 1, Metals.fetch_metal_prices. cbn [Metals.calls Metals.shown].
  rewrite checked_failure, length_app. cbn [length]. rewrite Nat.add_1_r.
  destruct (metals_failure (Metals.prices_api api (S (length (Metals.calls pg)))
                              metal_id start_date end_date)) as [e|] eqn:Fp.
  { eexists _, [Metals.GetPrices metal_id start_date end_date], [Metals.st_info]. split.
    - now rewrite <- !app_assoc.
    - right. right. exists metal_id. repeat split; auto. cbv zeta. left. eauto. }
  destruct (metals_failure_none _ Fp) as (pstatus & data & Erep & Hstatus).
  rewrite Erep. destruct data as [|p data]; cbn [empty].
  - eexists _, [Metals.GetPrices metal_id start_date end_date],
      [Metals.st_info; Metals.st_warning]. split.
    + unfold Metals.show. cbn [Metals.calls Metals.shown]. now rewrite <- !app_assoc.
    + right. right. exists metal_id. repeat split; auto. cbv zeta. rewrite Erep.
      right. left. exists pstatus. auto.
  - unfold Metals.bind at 1, Metals.to_datetime.
    destruct (forallb (fun p0 => Metals.in_bounds (Metals.Date p0)) (p :: data)) eqn:Eb.
    + eexists _, [Metals.GetPrices metal_id start_date end_date],
        (metals_display (Metals.sort_values (p :: data))). split.
      * unfold Metals.ret, Metals.bind, Metals.show. cbn [Metals.calls Metals.shown].
        unfold metals_display. now rewrite <- !app_assoc.
      * right. right. exists metal_id. repeat split; auto. cbv zeta. rewrite Erep.
        right. right. right. exists pstatus, (p :: data). repeat split; auto. discriminate.
    + eexists _, [Metals.GetPrices metal_id start_date end_date], [Metals.st_info]. split.
      * unfold Metals.raise. now rewrite <- !app_assoc.
      * right. right. exists metal_id. repeat split; auto. cbv zeta. rewrite Erep.
        right. right. left. exists pstatus, (p :: data). repeat split; auto. discriminate.
Qed.

(** X15. The metals section asks for the list of metals first and then
    issues at most one price request, for the whole range entered, however
    long (the range is not split into windows); when the start date is after
    the end date it issues no price request, and unless the run failed
    before, it shows the error and nothing else. *)
Theorem metals_one_price_request (api : Metals.Api)
    (selectbox : list string -> option string) (start_date end_date : date)
    (pg : Metals.Page) :
  let run := Metals.metals_section api selectbox start_date end_date pg in
  exists more,
    Metals.calls (snd run) = Metals.calls pg ++ Metals.GetMetals :: more /\
    (more = [] \/
     exists metal_id,
       more = [Metals.GetPrices metal_id start_date end_date] /\ start_date <= end_date) /\
    (end_date < start_date ->
     more = [] /\
     (fst run = Metals.Done tt ->
      Metals.shown (snd run) = Metals.shown pg ++ [Metals.st_header; Metals.st_error])).
Proof.
  cbv zeta.
  destruct (metals_section_cases api selectbox start_date end_date pg)
    as (out & more & evs & -> & Hcases).
  cbn [fst snd Metals.calls Metals.shown]. exists more. split; [reflexivity|].
  destruct Hcases as [(-> & -> & ex & ->)|[(-> & -> & Hlt & ->)|(id & -> & Hle & _)]].
  - split; [now left|]. intros _. split; [reflexivity|discriminate].
  - split; [now left|]. intros _. split; reflexivity.
  - split; [right; eauto|]. intros Hlt. lia.
Qed.

(** X16. For the metal prices a 404 is an error like any other 4xx or 5xx
    status: when the price request is answered with such a status, the
    section raises [HTTPError] with that status, having shown only the
    header and the loading note (no warning, no table). *)
Theorem metals_price_error_status_raises (api : Metals.Api)
    (selectbox : list string -> option string) (start_date end_date : date)
    (pg : Metals.Page) (metal_id status : Z) (body : option (list Metals.Price)) :
  Metals.calls (snd (Metals.metals_section api selectbox start_date end_date pg))
  = Metals.calls pg ++ [Metals.GetMetals; Metals.GetPrices metal_id start_date end_date] ->
  Metals.prices_api api (S (length (Metals.calls pg))) metal_id start_date end_date
  = Metals.HttpReply status body ->
  400 <= status < 600 ->
  Metals.metals_section api selectbox start_date end_date pg
  = (Metals.Failed (Metals.Requests (HTTPError status)),
     {| Metals.calls := Metals.calls pg
                        ++ [Metals.GetMetals; Metals.GetPrices metal_id start_date end_date];
        Metals.shown := Metals.shown pg ++ [Metals.st_header; Metals.st_info] |}).
Proof.
  intros Hcalls Hrep Hstatus.
  destruct (metals_section_cases api selectbox start_date end_date pg)
    as (out & more & evs & E & Hcases).
  rewrite E in Hcalls |- *. cbn [snd Metals.calls] in Hcalls.
  apply app_inv_head in Hcalls. injection Hcalls as ->.
  destruct Hcases as [(Hc & _)|[(Hc & _)|(id & [= <-] & _ & Hrun)]]; try discriminate.
  cbv zeta in Hrun. rewrite Hrep in Hrun.
  assert (Hfail : metals_failure (Metals.HttpReply status body) = Some (HTTPError status)).
  { cbn [metals_failure].
    replace ((400 <=? status) && (status <? 600)) with true; [reflexivity|].
    symmetry. apply andb_true_intro. split; [apply Z.leb_le|apply Z.ltb_lt]; lia. }
  destruct Hrun as [(e & He & -> & ->)
                   |[(st0 & [= -> _] & Hno & _)
                    |[(st0 & data & [= -> _] & Hno & _)
                     |(st0 & data & [= -> _] & Hno & _)]]];
    try (exfalso; apply Hno; exact Hstatus).
  rewrite Hfail in He. injection He as <-. reflexivity.
Qed.

Lemma metals_price_error_status_raises_witness :
  Metals.metals_section Metals.sample_api pick_silver 10 20 Metals.blank
  = (Metals.Failed (Metals.Requests (HTTPError 404)),
     {| Metals.calls := [Metals.GetMetals; Metals.GetPrices 1 10 20];
        Metals.shown := [Metals.st_header; Metals.st_info] |}).
Proof.
  apply (metals_price_error_status_raises Metals.sample_api pick_silver 10 20 Metals.blank
           1 404 None).
  - reflexivity.
  - reflexivity.
  - lia.
Defined.





(** Rows of an equal date keep the order of the reply, as the stable
    [sort_values] leaves them. *)
Example metals_sort_keeps_reply_order :
  Metals.sort_values
    [ {| Metals.Date := 738523; Metals.Value := S754_zero false |};
      {| Metals.Date := 738521; Metals.Value := S754_zero false |};
      {| Metals.Date := 738521; Metals.Value := S754_zero true |} ]
  = [ {| Metals.Date := 738521; Metals.Value := S754_zero false |};
      {| Metals.Date := 738521; Metals.Value := S754_zero true |};
      {| Metals.Date := 738523; Metals.Value := S754_zero false |} ].
Proof. reflexivity. Qed.

(** A reply with a date that [pd.to_datetime] refuses gives no table: the
    section raises after the loading note. *)
Example metals_out_of_bounds_date_raises :
  Metals.metals_section
    {| Metals.metals_api := fun _ => Metals.HttpReply 200 (Some Metals.sample_metals);
       Metals.prices_api := fun _ _ _ _ =>
         Metals.HttpReply 200 (Some [ {| Metals.Date := 10; Metals.Value := S754_zero false |} ]) |}
    Metals.pick_first 10 20 Metals.blank
  = (Metals.Failed Metals.OutOfBoundsDatetime,
     {| Metals.calls := [Metals.GetMetals; Metals.GetPrices 5 10 20];
        Metals.shown := [Metals.st_header; Metals.st_info] |}).
Proof. reflexivity. Qed.

(** ** The chunked fetcher: the dates kept *)

Lemma first_at_in (df : DataFrame) (d : date) :
  In d (map Date df) <-> first_at df d <> None.
Proof.
  unfold first_at. split.
  - intros Hin Hnone. apply in_map_iff in Hin. destruct Hin as (p & <- & Hp).
    pose proof (find_none _ _ Hnone p Hp) as Hc. cbv beta in Hc.
    rewrite Z.eqb_refl in Hc. discriminate.
  - destruct (find (fun p => Date p =? d) df) as [p|] eqn:F; [|congruence].
    intros _. apply find_some in F. destruct F as [Hp Hd]. apply Z.eqb_eq in Hd.
    subst d. now apply in_map.
Qed.

(** X18. The chunked fetcher neither loses nor invents dates, and does not
    filter the rows by the window asked for: a date is in the returned
    series exactly when some reply that contributed rows has a row of that
    date, and every row returned is a row of such a reply. *)
Theorem fetched_series_keeps_every_date (upstream : nat -> Request -> NetReply)
    (cur_id : Z) (start end_ : date) (st st' : Session) (df : DataFrame) :
  chunked_dynamics_fetch upstream cur_id start end_ st = (Return df, st') ->
  (forall d, In d (map Date df) <->
     exists k, (k < n_windows start end_)%nat /\
               In d (map Date (reply_rows (reply_at upstream cur_id end_ st start k)))) /\
  (forall p, In p df ->
     exists k, (k < n_windows start end_)%nat /\
               In p (reply_rows (reply_at upstream cur_id end_ st start k))).
Proof.
  intros Hrun.
  set (chunks := flat_map (fun k => reply_chunk (reply_at upstream cur_id end_ st start k))
                          (seq 0 (n_windows start end_))).
  assert (E : df = merge_chunks chunks).
  { destruct (Z.lt_ge_cases end_ start) as [Hlt|Hge].
    - rewrite (fetch_reversed_range upstream cur_id start end_ st Hlt) in Hrun.
      injection Hrun as <- _. unfold chunks. now rewrite (n_windows_empty start end_ Hlt).
    - destruct (first_raise upstream cur_id end_ st start (n_windows start end_))
        as [Hok|(j & e & Hj & Hok & Hbad)].
      + rewrite (fetch_ok upstream cur_id start end_ st Hge Hok) in Hrun.
        injection Hrun as <- _. reflexivity.
      + rewrite (fetch_raise upstream cur_id start end_ st j e Hge Hj Hok Hbad) in Hrun.
        discriminate. }
  assert (C : forall p, In p (concat chunks) <->
                exists k, (k < n_windows start end_)%nat /\
                          In p (reply_rows (reply_at upstream cur_id end_ st start k))).
  { intros p. unfold chunks, reply_rows. split.
    - intros Hp. apply in_concat in Hp. destruct Hp as (chunk & Hc & Hp).
      apply in_flat_map in Hc. destruct Hc as (k & Hk & Hc). apply in_seq in Hk.
      exists k. split; [lia|]. apply in_concat. eauto.
    - intros (k & Hk & Hp). apply in_concat in Hp. destruct Hp as (chunk & Hc & Hp).
      apply in_concat. exists chunk. split; [|exact Hp].
      apply in_flat_map. exists k. split; [apply in_seq; lia|exact Hc]. }
  destruct (merge_chunks_spec chunks) as (_ & _ & Hfirst & Hin). subst df. split.
  - intros d. rewrite first_at_in, Hfirst, <- first_at_in. rewrite in_map_iff. split.
    + intros (p & <- & Hp). apply C in Hp. destruct Hp as (k & Hk & Hp).
      exists k. split; [exact Hk|]. now apply in_map.
    + intros (k & Hk & Hd). apply in_map_iff in Hd. destruct Hd as (p & <- & Hp).
      exists p. split; [reflexivity|]. apply C. eauto.
  - intros p Hp. apply C, Hin, Hp.
Qed.

Lemma fetched_series_keeps_every_date_witness :
  chunked_dynamics_fetch january_upstream 431 jan_1_2023 feb_4_2024 fresh
  = (Return january_rows, after_calls fresh (windows 431 jan_1_2023 feb_4_2024)) /\
  exists k, (k < n_windows jan_1_2023 feb_4_2024)%nat /\
    In jan_3_2023
       (map Date (reply_rows (reply_at january_upstream 431 feb_4_2024 fresh jan_1_2023 k))).
Proof.
  assert (H : chunked_dynamics_fetch january_upstream 431 jan_1_2023 feb_4_2024 fresh
              = (Return january_rows, after_calls fresh (windows 431 jan_1_2023 feb_4_2024)))
    by (vm_compute; reflexivity).
  split; [exact H|].
  destruct (fetched_series_keeps_every_date january_upstream 431 jan_1_2023 feb_4_2024
              fresh _ january_rows H) as [Hdates _].
  apply Hdates. right. left. reflexivity.
Defined.
